(** * Talk2Tables front end: chart inference, catalog refresh and query submission

    A shallow embedding of the logic of [frontend/src/App.js] and
    [frontend/src/TableConfig.js], and the properties of the specification
    that concern it.

    Layout: the JavaScript values and built-ins the code relies on, plain
    objects used as dictionaries, then the two React components as explicit
    state transformers that also return the list of HTTP calls they issue.
    Theorems come after all definitions. *)

From Stdlib Require Import List String Ascii Bool Arith NArith ZArith Lia.
From Stdlib Require Import PrimFloat FloatOps DecimalString.
Import ListNotations.
Local Open Scope string_scope.
Local Open Scope list_scope.

(* ================================================================== *)
(** ** JavaScript strings *)

(** A JavaScript string is a sequence of UTF-16 code units.  It is modelled
    by a Rocq [string] whose characters are the code units; only code units
    below 256 are representable. *)
Module JsString.

Definition code (c : ascii) : N := N_of_ascii c.

(** WhiteSpace and LineTerminator code units (ECMA-262 12.2, 12.3) below
    256: TAB, LF, VT, FF, CR, SP and NBSP. *)
Definition is_white (c : ascii) : bool :=
  let n := code c in
  ((9 <=? n) && (n <=? 13) || (n =? 32) || (n =? 160))%N.

Definition is_digit (c : ascii) : bool :=
  let n := code c in ((48 <=? n) && (n <=? 57))%N.

Definition is_hex_digit (c : ascii) : bool :=
  let n := code c in
  (is_digit c || (65 <=? n) && (n <=? 70) || (97 <=? n) && (n <=? 102))%N.

Definition is_octal_digit (c : ascii) : bool :=
  let n := code c in ((48 <=? n) && (n <=? 55))%N.

Definition is_binary_digit (c : ascii) : bool :=
  let n := code c in ((n =? 48) || (n =? 49))%N.

Fixpoint all (p : ascii -> bool) (s : string) : bool :=
  match s with
  | EmptyString => true
  | String c s' => p c && all p s'
  end.

Fixpoint drop_while (p : ascii -> bool) (s : string) : string :=
  match s with
  | EmptyString => EmptyString
  | String c s' => if p c then drop_while p s' else s
  end.

Fixpoint rev_onto (s acc : string) : string :=
  match s with
  | EmptyString => acc
  | String c s' => rev_onto s' (String c acc)
  end.

Definition rev (s : string) : string := rev_onto s EmptyString.

(** [String.prototype.trimStart], [trimEnd] and [trim]. *)
Definition trimStart (s : string) : string := drop_while is_white s.
Definition trimEnd (s : string) : string := rev (drop_while is_white (rev s)).
Definition trim (s : string) : string := trimEnd (trimStart s).

Definition is_empty (s : string) : bool :=
  match s with EmptyString => true | _ => false end.

(** A string holding one or more characters, all satisfying [p]. *)
Definition some_all (p : ascii -> bool) (s : string) : bool :=
  negb (is_empty s) && all p s.

(** ExponentPart (optional): nothing, or [e]/[E], an optional sign and
    one or more digits, up to the end of the string. *)
Definition exponent_opt (s : string) : bool :=
  match s with
  | EmptyString => true
  | String c r =>
      if ((c =? "e") || (c =? "E"))%char then
        match r with
        | String d r' =>
            if ((d =? "+") || (d =? "-"))%char then some_all is_digit r'
            else some_all is_digit r
        | EmptyString => false
        end
      else false
  end.

(** StrUnsignedDecimalLiteral (ECMA-262 7.1.4.1.1). *)
Definition str_unsigned_decimal (s : string) : bool :=
  if (s =? "Infinity") then true
  else
    let r1 := drop_while is_digit s in
    let has_int := negb (String.length r1 =? String.length s)%nat in
    match r1 with
    | String c r2 =>
        if (c =? ".")%char then
          let r3 := drop_while is_digit r2 in
          let has_frac := negb (String.length r3 =? String.length r2)%nat in
          (has_int || has_frac) && exponent_opt r3
        else has_int && exponent_opt r1
    | EmptyString => has_int
    end.

(** StrNumericLiteral: a signed decimal literal, or an unsigned binary,
    octal or hexadecimal integer literal. *)
Definition str_numeric_literal (s : string) : bool :=
  match s with
  | String c r =>
      if ((c =? "+") || (c =? "-"))%char then str_unsigned_decimal r
      else
        match s with
        | String "0" (String p digits) =>
            if ((p =? "x") || (p =? "X"))%char then some_all is_hex_digit digits
            else if ((p =? "o") || (p =? "O"))%char then some_all is_octal_digit digits
            else if ((p =? "b") || (p =? "B"))%char then some_all is_binary_digit digits
            else str_unsigned_decimal s
        | _ => str_unsigned_decimal s
        end
  | EmptyString => false
  end.

(** Whether StringToNumber yields NaN: the trimmed text is neither empty
    (which converts to 0) nor a numeric literal. *)
Definition to_number_is_nan (s : string) : bool :=
  let t := trim s in
  negb (is_empty t || str_numeric_literal t).

End JsString.

(* ================================================================== *)
(** ** JavaScript values and the built-ins used by the front end *)

(** What ECMA-262 leaves to the implementation, or what is too large to
    embed: date parsing, number formatting, and the text a built-in member
    of [Object.prototype] converts to. *)
Class Engine := {
  (** [Date.parse] on a string: [None] stands for NaN, [Some t] for a time
      value in milliseconds. *)
  Date_parse : string -> option Z;
  (** [Number.prototype.toString] with radix 10. *)
  Number_toString : float -> string;
  (** ToPrimitive of the member of [Object.prototype] stored under a
      name: the source text of a native function, or ["[object Object]"] for
      the prototype itself. *)
  native_toString : string -> string
}.

(** The scalar values a JSON rowset can hold, [undefined], and the values
    a property read can fetch from [Object.prototype]. *)
Inductive JsValue :=
| JUndefined
| JNull
| JBool (b : bool)
| JNum (n : float)
| JStr (s : string)
| JNative (member : string).

Module Js.
Section WithEngine.
Context {E : Engine}.

(** ToString *)
Definition ToString (v : JsValue) : string :=
  match v with
  | JUndefined => "undefined"
  | JNull => "null"
  | JBool true => "true"
  | JBool false => "false"
  | JNum n => Number_toString n
  | JStr s => s
  | JNative m => native_toString m
  end.

(** The global [isNaN]: ToNumber, then the NaN test. *)
Definition isNaN (v : JsValue) : bool :=
  match v with
  | JUndefined => true
  | JNull => false
  | JBool _ => false
  | JNum n => PrimFloat.is_nan n
  | JStr s => JsString.to_number_is_nan s
  | JNative m => JsString.to_number_is_nan (native_toString m)
  end.

(** [typeof v === 'boolean'] *)
Definition is_boolean (v : JsValue) : bool :=
  match v with JBool _ => true | _ => false end.

(** [!isNaN(Date.parse(v))] *)
Definition parses_as_date (v : JsValue) : bool :=
  match Date_parse (ToString v) with Some _ => true | None => false end.

(** ToBoolean *)
Definition truthy (v : JsValue) : bool :=
  match v with
  | JUndefined | JNull => false
  | JBool b => b
  | JNum n => negb (PrimFloat.is_zero n || PrimFloat.is_nan n)
  | JStr s => negb (JsString.is_empty s)
  | JNative _ => true
  end.

(** [a || b] *)
Definition or_else (a b : JsValue) : JsValue := if truthy a then a else b.

(** [a === b] against a string literal [b]. *)
Definition strict_eq_string (a : JsValue) (b : string) : bool :=
  match a with JStr s => (s =? b) | _ => false end.

End WithEngine.
End Js.

(* ================================================================== *)
(** ** Plain objects used as dictionaries *)

(** An object created by the literal [{}]: its own enumerable string-keyed
    properties, kept in the order [Object.keys] reports them (array-index
    keys first, ascending, then the other keys in creation order), with
    [Object.prototype] as its prototype. *)
Module JsObj.

Definition t (V : Type) : Type := list (string * V).

Definition empty {V} : t V := [].

(** The string-keyed members of an unmodified [Object.prototype]. *)
Definition prototype_members : list string :=
  [ "constructor"; "__defineGetter__"; "__defineSetter__"; "hasOwnProperty";
    "__lookupGetter__"; "__lookupSetter__"; "isPrototypeOf";
    "propertyIsEnumerable"; "toString"; "valueOf"; "__proto__";
    "toLocaleString" ].

Definition inherited (k : string) : bool :=
  existsb (String.eqb k) prototype_members.

(** The value of an array-index key: a canonical decimal numeral below
    2^32 - 1. *)
Fixpoint digits_value (s : string) (acc : N) : N :=
  match s with
  | EmptyString => acc
  | String c s' => digits_value s' (10 * acc + (JsString.code c - 48))%N
  end.

Definition array_index (k : string) : option N :=
  match k with
  | EmptyString => None
  | String c r =>
      if JsString.all JsString.is_digit k
         && (negb (c =? "0")%char || JsString.is_empty r)
      then
        let n := digits_value k 0 in
        if (n <? 4294967295)%N then Some n else None
      else None
  end.

Section Ops.
Context {V : Type}.

Fixpoint own_get (o : t V) (k : string) : option V :=
  match o with
  | [] => None
  | (k', v) :: o' => if (k' =? k) then Some v else own_get o' k
  end.

Definition has_own (o : t V) (k : string) : bool :=
  match own_get o k with Some _ => true | None => false end.

Fixpoint replace (o : t V) (k : string) (v : V) : t V :=
  match o with
  | [] => []
  | (k', v') :: o' =>
      if (k' =? k) then (k', v) :: o' else (k', v') :: replace o' k v
  end.

Fixpoint insert_index (i : N) (k : string) (v : V) (o : t V) : t V :=
  match o with
  | [] => [(k, v)]
  | (k', v') :: o' =>
      match array_index k' with
      | Some j =>
          if (j <? i)%N then (k', v') :: insert_index i k v o'
          else (k, v) :: o
      | None => (k, v) :: o
      end
  end.

(** A new own property takes its place in the key order. *)
Definition add_own (o : t V) (k : string) (v : V) : t V :=
  match array_index k with
  | Some i => insert_index i k v o
  | None => o ++ [(k, v)]
  end.

(** CreateDataProperty, as performed by object spread and by a computed
    key in an object literal. *)
Definition define (o : t V) (k : string) (v : V) : t V :=
  if has_own o k then replace o k v else add_own o k v.

(** [o[k] = v] for a primitive [v].  Without an own property [k], the
    assignment reaches the prototype: the [__proto__] setter ignores a
    primitive, every other member is a writable data property, so an
    own property is created. *)
Definition set (o : t V) (k : string) (v : V) : t V :=
  if has_own o k then replace o k v
  else if (k =? "__proto__") then o
  else add_own o k v.

(** What a read [o[k]] finds. *)
Inductive lookup :=
| Own (v : V)
| Inherited
| Missing.

Definition get (o : t V) (k : string) : lookup :=
  match own_get o k with
  | Some v => Own v
  | None => if inherited k then Inherited else Missing
  end.

(** [{...o}] *)
Definition spread (o : t V) : t V :=
  fold_left (fun acc kv => define acc (fst kv) (snd kv)) o empty.

(** [Object.keys(o)] and [Object.values(o)] *)
Definition keys (o : t V) : list string := map fst o.
Definition values (o : t V) : list V := map snd o.

End Ops.

Arguments lookup V : clear implicits.

End JsObj.

(* ================================================================== *)
(** ** Chart inference and chart data ([App.js], lines 33-160) *)

(** A record of a rowset: a JSON object from column name to scalar. *)
Definition Row : Type := JsObj.t JsValue.

(** [row[col]] *)
Definition Row_get (row : Row) (col : string) : JsValue :=
  match JsObj.get row col with
  | JsObj.Own v => v
  | JsObj.Inherited => JNative col
  | JsObj.Missing => JUndefined
  end.

(** The object [determineChartType] returns.  A binding is [None] when the
    JavaScript property would hold [undefined]. *)
Inductive ChartInfo :=
| line (x y : option string)
| bar (x y : option string)
| pie (category : option string).

(** A value stored in the [categories] object: a number (an occurrence
    count) or a string. *)
Inductive CatVal :=
| Count (n : N)
| Text (s : string).

(** The [data] prop passed to the chart component. *)
Inductive ChartData :=
| PieData (labels : list string) (data : list CatVal)
| XYData (labels : list JsValue) (data : list JsValue).

Module Chart.
Section WithEngine.
Context {E : Engine}.

(** [!isNaN(data[0][col]) && typeof data[0][col] !== 'boolean'] *)
Definition is_numeric (row0 : Row) (col : string) : bool :=
  negb (Js.isNaN (Row_get row0 col)) && negb (Js.is_boolean (Row_get row0 col)).

(** [isNaN(data[0][col]) || typeof data[0][col] === 'boolean'] *)
Definition is_categorical (row0 : Row) (col : string) : bool :=
  Js.isNaN (Row_get row0 col) || Js.is_boolean (Row_get row0 col).

(** [!isNaN(Date.parse(data[0][col]))] *)
Definition is_date_like (row0 : Row) (col : string) : bool :=
  Js.parses_as_date (Row_get row0 col).

Definition numericColumns (row0 : Row) : list string :=
  filter (is_numeric row0) (JsObj.keys row0).

Definition categoricalColumns (row0 : Row) : list string :=
  filter (is_categorical row0) (JsObj.keys row0).

Definition possibleDateColumns (row0 : Row) : list string :=
  filter (is_date_like row0) (categoricalColumns row0).

(** [arr[0]] *)
Definition first {A} (arr : list A) : option A := nth_error arr 0.

(** [(categories[cat] || 0) + 1] *)
Definition next_count (k : string) (found : JsObj.lookup CatVal) : CatVal :=
  match found with
  | JsObj.Missing => Count 1
  | JsObj.Own (Count n) => if (n =? 0)%N then Count 1 else Count (n + 1)
  | JsObj.Own (Text s) => if JsString.is_empty s then Count 1 else Text (s ++ "1")
  | JsObj.Inherited => Text (native_toString k ++ "1")
  end.

(** [row[col]] where [col] may hold [undefined], which as a property
    key is the string ["undefined"]. *)
Definition get_opt (row : Row) (col : option string) : JsValue :=
  match col with
  | Some c => Row_get row c
  | None => Row_get row "undefined"
  end.

(** One iteration of the [forEach] that counts categories. *)
Definition count_row (col : option string) (categories : JsObj.t CatVal)
    (row : Row) : JsObj.t CatVal :=
  let cat := get_opt row col in
  let k := Js.ToString cat in
  JsObj.set categories k (next_count k (JsObj.get categories k)).

Definition count_categories (col : option string) (data : list Row)
    : JsObj.t CatVal :=
  fold_left (count_row col) data JsObj.empty.

(** [determineChartType(data)]; [None] is the [null] result.  The
    [categories] object of the pie branch is built and dropped, as in the
    source. *)
Definition determineChartType (data : option (list Row)) : option ChartInfo :=
  match data with
  | None => None
  | Some [] => None
  | Some ((row0 :: _) as rows) =>
      let numericColumns := numericColumns row0 in
      let categoricalColumns := categoricalColumns row0 in
      let possibleDateColumns := possibleDateColumns row0 in
      if ((0 <? List.length possibleDateColumns) && (0 <? List.length numericColumns))%nat
      then Some (line (first possibleDateColumns) (first numericColumns))
      else if ((0 <? List.length categoricalColumns) && (0 <? List.length numericColumns))%nat
      then
        if (List.length rows <=? 10)%nat
        then Some (bar (first categoricalColumns) (first numericColumns))
        else Some (line (first categoricalColumns) (first numericColumns))
      else if ((0 <? List.length categoricalColumns) && (List.length rows <=? 10))%nat
      then
        let categories := count_categories (first categoricalColumns) rows in
        Some (pie (first categoricalColumns))
      else None
  end.

(** [getChartData()] inside [DataVisualization]: labels and the single
    dataset's [data]; colours and the dataset caption are presentation. *)
Definition getChartData (data : list Row) (chartInfo : ChartInfo) : ChartData :=
  match chartInfo with
  | pie category =>
      let categories := count_categories category data in
      PieData (JsObj.keys categories) (JsObj.values categories)
  | line x y | bar x y =>
      XYData (map (fun row => get_opt row x) data)
             (map (fun row => get_opt row y) data)
  end.

(** The sum of the occurrence counts among chart values. *)
Definition count_of (v : CatVal) : N :=
  match v with Count n => n | Text _ => 0%N end.

Definition is_count (v : CatVal) : bool :=
  match v with Count _ => true | Text _ => false end.

Definition total (vs : list CatVal) : N :=
  fold_right (fun v acc => (count_of v + acc)%N) 0%N vs.

End WithEngine.
End Chart.

(* ================================================================== *)
(** ** The HTTP collaborator *)

(** The calls the two components issue, in the order they are issued. *)
Inductive HttpCall :=
| GET_tables
| GET_excel_tables
| GET_available_tables
| POST_tables (table_name : string)
| POST_chat (message : string) (tables : list string).

(** The error an axios call rejects with, as far as
    [error.response?.data?.detail] reads it. *)
Inductive AxiosError :=
| NoResponse
| Response (data : option JsValue).

(** [error.response?.data?.detail]; a body without [detail] carries
    [JUndefined]. *)
Definition error_detail (error : AxiosError) : JsValue :=
  match error with
  | NoResponse => JUndefined
  | Response None => JUndefined
  | Response (Some detail) => detail
  end.

Inductive Result (A : Type) :=
| Resolved (response_data : A)
| Rejected (error : AxiosError).
Arguments Resolved {A} _.
Arguments Rejected {A} _.

(** An entry of [GET /api/tables]. *)
Record TableInfo := {
  table_name : string;
  table_columns : list (string * string);
  table_description : JsValue
}.

(** An entry of [GET /api/excel-tables]. *)
Record ExcelTableInfo := {
  excel_name : string;
  excel_original_filename : string;
  excel_columns : list string;
  excel_description : JsValue;
  excel_expires_at : string
}.

(** The body of a successful [POST /api/chat]. *)
Record ChatResponse := {
  answer : JsValue;
  sql_query : JsValue;
  data : option (list Row)
}.

(** What the service answers to each call a handler makes. *)
Record Backend := {
  get_tables : Result (list TableInfo);
  get_excel_tables : Result (list ExcelTableInfo);
  post_tables : string -> Result unit;
  post_chat : string -> list string -> Result ChatResponse
}.

(* ================================================================== *)
(** ** The [Chat] component ([App.js], lines 175-319) *)

Module Chat.

(** An element of [availableTables]; its [type] is always
    ['postgresql']. *)
Module Pg.
Record t := { name : string; selected : bool }.
End Pg.

(** An element of [excelTables]. *)
Module Excel.
Record t := {
  name : string;
  original_filename : string;
  expires_at : string;
  selected : bool
}.
End Excel.

(** An element of [messages], by its [type]. *)
Inductive Message :=
| user (content : string)
| error (content : JsValue)
| bot (content sql : JsValue) (data : option (list Row)) (showSql : bool).

Record State := {
  messages : list Message;
  input : string;
  isLoading : bool;
  availableTables : list Pg.t;
  excelTables : list Excel.t
}.

Definition setMessages (f : list Message -> list Message) (st : State) : State :=
  {| messages := f (messages st); input := input st; isLoading := isLoading st;
     availableTables := availableTables st; excelTables := excelTables st |}.

Definition setInput (s : string) (st : State) : State :=
  {| messages := messages st; input := s; isLoading := isLoading st;
     availableTables := availableTables st; excelTables := excelTables st |}.

Definition setIsLoading (b : bool) (st : State) : State :=
  {| messages := messages st; input := input st; isLoading := b;
     availableTables := availableTables st; excelTables := excelTables st |}.

Definition setAvailableTables (f : list Pg.t -> list Pg.t) (st : State) : State :=
  {| messages := messages st; input := input st; isLoading := isLoading st;
     availableTables := f (availableTables st); excelTables := excelTables st |}.

Definition setExcelTables (f : list Excel.t -> list Excel.t) (st : State) : State :=
  {| messages := messages st; input := input st; isLoading := isLoading st;
     availableTables := availableTables st; excelTables := f (excelTables st) |}.

(** [loadExcelTables]: run on mount and by the 30-second interval. *)
Definition loadExcelTables (be : Backend) (st : State) : State * list HttpCall :=
  match get_excel_tables be with
  | Resolved response_data =>
      (setExcelTables (fun _ =>
         map (fun table =>
                {| Excel.name := excel_name table;
                   Excel.original_filename := excel_original_filename table;
                   Excel.expires_at := excel_expires_at table;
                   Excel.selected := false |}) response_data) st,
       [GET_excel_tables])
  | Rejected _ => (st, [GET_excel_tables])
  end.

(** [loadTables]: run on mount. *)
Definition loadTables (be : Backend) (st : State) : State * list HttpCall :=
  match get_tables be with
  | Resolved response_data =>
      (setAvailableTables (fun _ =>
         map (fun table =>
                {| Pg.name := table_name table; Pg.selected := false |})
             response_data) st,
       [GET_tables])
  | Rejected _ => (st, [GET_tables])
  end.

Definition toggleTableSelection (tableName : string) (isExcel : bool)
    (st : State) : State :=
  if isExcel then
    setExcelTables (fun tables =>
      map (fun table =>
             if (Excel.name table =? tableName)
             then {| Excel.name := Excel.name table;
                     Excel.original_filename := Excel.original_filename table;
                     Excel.expires_at := Excel.expires_at table;
                     Excel.selected := negb (Excel.selected table) |}
             else table) tables) st
  else
    setAvailableTables (fun tables =>
      map (fun table =>
             if (Pg.name table =? tableName)
             then {| Pg.name := Pg.name table;
                     Pg.selected := negb (Pg.selected table) |}
             else table) tables) st.

Definition no_selection_message : string :=
  "Please select at least one table to query.".

Definition fallback_message : string :=
  "Sorry, there was an error processing your request.".

Definition allSelectedTables (st : State) : list string :=
  let selectedPgTables :=
    map Pg.name (filter Pg.selected (availableTables st)) in
  let selectedExcelTables :=
    map Excel.name (filter Excel.selected (excelTables st)) in
  selectedPgTables ++ selectedExcelTables.

(** [handleSubmit]: the state once the handler has run to its end, and
    the calls it made.  The state updates of the handler are functional
    updates of [messages] and plain writes of [input] and [isLoading], so an
    event that runs while the call is awaited does not change what the
    handler itself contributes. *)
Definition handleSubmit (be : Backend) (st : State) : State * list HttpCall :=
  if JsString.is_empty (JsString.trim (input st)) then (st, [])
  else
    let allSelectedTables := allSelectedTables st in
    if (List.length allSelectedTables =? 0)%nat then
      (setMessages (fun prev => prev ++ [error (JStr no_selection_message)]) st, [])
    else
      let userMessage := user (input st) in
      let st1 :=
        setIsLoading true
          (setInput "" (setMessages (fun prev => prev ++ [userMessage]) st)) in
      let call := POST_chat (input st) allSelectedTables in
      match post_chat be (input st) allSelectedTables with
      | Resolved response_data =>
          let botMessage :=
            bot (answer response_data) (sql_query response_data)
                (data response_data) false in
          (setIsLoading false (setMessages (fun prev => prev ++ [botMessage]) st1),
           [call])
      | Rejected e =>
          let errorMessage :=
            error (Js.or_else (error_detail e) (JStr fallback_message)) in
          (setIsLoading false (setMessages (fun prev => prev ++ [errorMessage]) st1),
           [call])
      end.

(** The resource named [n] is shown as selected, in either list. *)
Definition pg_selected (st : State) (n : string) : bool :=
  existsb (fun table => (Pg.name table =? n) && Pg.selected table)
          (availableTables st).

Definition excel_selected (st : State) (n : string) : bool :=
  existsb (fun table => (Excel.name table =? n) && Excel.selected table)
          (excelTables st).

Definition is_error (m : Message) : bool :=
  match m with error _ => true | _ => false end.

End Chat.

(* ================================================================== *)
(** ** The [TableConfig] component ([TableConfig.js], lines 116-213) *)

Module TableConfig.

Definition analyzing : string := "Analyzing table structure...".

Record State := {
  tables : list TableInfo;
  availableTables : list string;
  selectedTable : string;
  loadingStates : JsObj.t bool;
  addingTable : bool;
  error : option JsValue
}.

Definition setTables (ts : list TableInfo) (st : State) : State :=
  {| tables := ts; availableTables := availableTables st;
     selectedTable := selectedTable st; loadingStates := loadingStates st;
     addingTable := addingTable st; error := error st |}.

Definition setSelectedTable (s : string) (st : State) : State :=
  {| tables := tables st; availableTables := availableTables st;
     selectedTable := s; loadingStates := loadingStates st;
     addingTable := addingTable st; error := error st |}.

Definition setLoadingStates (f : JsObj.t bool -> JsObj.t bool) (st : State) : State :=
  {| tables := tables st; availableTables := availableTables st;
     selectedTable := selectedTable st; loadingStates := f (loadingStates st);
     addingTable := addingTable st; error := error st |}.

Definition setAddingTable (b : bool) (st : State) : State :=
  {| tables := tables st; availableTables := availableTables st;
     selectedTable := selectedTable st; loadingStates := loadingStates st;
     addingTable := b; error := error st |}.

(** [newLoadingStates[table.name] = table.description === "Analyzing table structure..."] *)
Definition classify (acc : JsObj.t bool) (table : TableInfo) : JsObj.t bool :=
  JsObj.set acc (table_name table)
    (Js.strict_eq_string (table_description table) analyzing).

(** The object [newLoadingStates] once the [forEach] has run. *)
Definition newLoadingStates (response_data : list TableInfo) : JsObj.t bool :=
  fold_left classify response_data JsObj.empty.

Definition loadTables (be : Backend) (st : State) : State * list HttpCall :=
  match get_tables be with
  | Resolved response_data =>
      (setLoadingStates (fun _ => newLoadingStates response_data)
         (setTables response_data st),
       [GET_tables])
  | Rejected _ => (st, [GET_tables])
  end.

(** [loadingStates[table.name] ? ... : ...] in the table list. *)
Definition shown_analyzing (st : State) (name : string) : bool :=
  match JsObj.get (loadingStates st) name with
  | JsObj.Own b => b
  | JsObj.Inherited => true
  | JsObj.Missing => false
  end.

(** [Object.values(loadingStates).some(state => state)], which keeps the
    2-second poll running. *)
Definition hasLoadingTables (st : State) : bool :=
  existsb (fun state => state) (JsObj.values (loadingStates st)).

(** The state [addTable] hands to [loadTables] after a successful POST:
    the selection cleared and [{ ...prev, [selectedTable]: true }]. *)
Definition markPending (name : string) (st : State) : State :=
  setLoadingStates (fun prev => JsObj.define (JsObj.spread prev) name true)
    (setSelectedTable "" st).

Definition addTable (be : Backend) (st : State) : State * list HttpCall :=
  if JsString.is_empty (selectedTable st) then (st, [])
  else
    let name := selectedTable st in
    let st1 := setAddingTable true st in
    match post_tables be name with
    | Resolved _ =>
        let (st2, calls) := loadTables be (markPending name st1) in
        (setAddingTable false st2, POST_tables name :: calls)
    | Rejected _ => (setAddingTable false st1, [POST_tables name])
    end.

(** The options of the drop-down. *)
Definition availableUnconfiguredTables (st : State) : list string :=
  filter (fun table =>
            negb (existsb (fun configuredTable =>
                             (table_name configuredTable =? table))
                          (tables st)))
         (availableTables st).

Definition configured (st : State) (name : string) : bool :=
  existsb (fun configuredTable => (table_name configuredTable =? name))
          (tables st).

(** A validation error, in the sense of the specification: the operation
    stops before any HTTP call and leaves a message in [error]. *)
Definition validation_error (result : State * list HttpCall) : bool :=
  match snd result, error (fst result) with
  | [], Some _ => true
  | _, _ => false
  end.

End TableConfig.

(* ================================================================== *)
(** ** A concrete engine and sample data *)

Module Sample.

Definition digit_value (c : ascii) : Z := Z.of_N (JsString.code c) - 48.

Definition two_digits (a b : ascii) : Z := 10 * digit_value a + digit_value b.

(** Days from 1970-01-01 to a proleptic Gregorian date. *)
Definition days_from_civil (y m d : Z) : Z :=
  let y' := if (m <=? 2)%Z then (y - 1)%Z else y in
  let era := (y' / 400)%Z in
  let yoe := (y' - era * 400)%Z in
  let mp := if (2 <? m)%Z then (m - 3)%Z else (m + 9)%Z in
  let doy := ((153 * mp + 2) / 5 + d - 1)%Z in
  let doe := (yoe * 365 + yoe / 4 - yoe / 100 + doy)%Z in
  (era * 146097 + doe - 719468)%Z.

(** A date parser that accepts the form [YYYY-MM-DD] and nothing else. *)
Definition parse_iso_date (s : string) : option Z :=
  match s with
  | String y1 (String y2 (String y3 (String y4 (String "-"
      (String m1 (String m2 (String "-" (String d1 (String d2 EmptyString))))))))) =>
      if forallb JsString.is_digit [y1; y2; y3; y4; m1; m2; d1; d2] then
        let y := (100 * two_digits y1 y2 + two_digits y3 y4)%Z in
        let m := two_digits m1 m2 in
        let d := two_digits d1 d2 in
        if ((1 <=? m) && (m <=? 12) && (1 <=? d) && (d <=? 31))%Z
        then Some (days_from_civil y m d * 86400000)%Z
        else None
      else None
  | _ => None
  end.

(** The decimal numeral of an integer-valued number. *)
Definition integer_text (n : float) : option string :=
  let print (negative : bool) (z : Z) :=
    NilEmpty.string_of_int (Z.to_int (if negative then (- z)%Z else z)) in
  match Prim2SF n with
  | SpecFloat.S754_zero _ => Some "0"
  | SpecFloat.S754_finite negative m e =>
      if (0 <=? e)%Z then Some (print negative (Z.pos m * 2 ^ e)%Z)
      else
        let d := (2 ^ (- e))%Z in
        if (Z.pos m mod d =? 0)%Z then Some (print negative (Z.pos m / d)%Z)
        else None
  | _ => None
  end.

(** Exact on NaN, the infinities and the integers that print without an
    exponent; the samples hold no other number. *)
Definition print_number (n : float) : string :=
  match integer_text n with
  | Some s => s
  | None =>
      if PrimFloat.is_nan n then "NaN"
      else if (n <? 0)%float then "-Infinity" else "Infinity"
  end.

(** The text V8 and JavaScriptCore give a native function; the
    [constructor] member is the function [Object]. *)
Definition print_native (member : string) : string :=
  if (member =? "__proto__") then "[object Object]"
  else if (member =? "constructor") then "function Object() { [native code] }"
  else "function " ++ member ++ "() { [native code] }".

#[export] Instance engine : Engine := {|
  Date_parse := parse_iso_date;
  Number_toString := print_number;
  native_toString := print_native
|}.

(** Rowsets. *)
Definition sale (day : string) (amount : float) : Row :=
  [("day", JStr day); ("amount", JNum amount)].

Definition sale_swapped (day : string) (amount : float) : Row :=
  [("amount", JNum amount); ("day", JStr day)].

Definition revenue (month : string) (amount : float) : Row :=
  [("month", JStr month); ("revenue", JNum amount)].

Definition months : list string :=
  ["Jan"; "Feb"; "Mar"; "Apr"; "May"; "Jun"; "Jul"; "Aug"; "Sep"; "Oct"; "Nov"].

Definition revenue_rows : list Row :=
  map (fun m => revenue m 10%float) months.

Definition status (s : string) : Row := [("status", JStr s)].

Definition status_rows : list Row := [status "ok"; status "ok"; status "fail"].

(** A service that is down. *)
Definition offline : Backend := {|
  get_tables := Rejected NoResponse;
  get_excel_tables := Rejected NoResponse;
  post_tables := fun _ => Rejected NoResponse;
  post_chat := fun _ _ => Rejected NoResponse
|}.

Definition upload : ExcelTableInfo := {|
  excel_name := "excel_sales_1";
  excel_original_filename := "sales.xlsx";
  excel_columns := ["region"; "total"];
  excel_description := JStr "Uploaded sheet";
  excel_expires_at := "2025-01-01T12:00:00"
|}.

Definition orders : TableInfo := {|
  table_name := "orders";
  table_columns := [("id", "integer"); ("placed", "date")];
  table_description := JStr "Customer orders"
|}.

Definition orders_pending : TableInfo := {|
  table_name := "orders";
  table_columns := [("id", "integer"); ("placed", "date")];
  table_description := JStr TableConfig.analyzing
|}.

(** A table whose name is a member of [Object.prototype]. *)
Definition proto_table : TableInfo := {|
  table_name := "__proto__";
  table_columns := [("id", "integer")];
  table_description := JStr "Prototype registry"
|}.

(** A service that serves one upload and one configured table, accepts
    every added table and fails every question with [detail]. *)
Definition serving (detail : option JsValue) : Backend := {|
  get_tables := Resolved [orders];
  get_excel_tables := Resolved [upload];
  post_tables := fun _ => Resolved tt;
  post_chat := fun _ _ => Rejected (Response detail)
|}.

(** A service whose catalog of configured tables is [tables]. *)
Definition catalog (tables : list TableInfo) : Backend := {|
  get_tables := Resolved tables;
  get_excel_tables := Resolved [];
  post_tables := fun _ => Resolved tt;
  post_chat := fun _ _ => Rejected NoResponse
|}.

(** The [Chat] state after mount against [serving], before any click. *)
Definition chat_loaded : Chat.State := {|
  Chat.messages := [];
  Chat.input := "";
  Chat.isLoading := false;
  Chat.availableTables := [ {| Chat.Pg.name := "orders"; Chat.Pg.selected := false |} ];
  Chat.excelTables :=
    [ {| Chat.Excel.name := "excel_sales_1";
         Chat.Excel.original_filename := "sales.xlsx";
         Chat.Excel.expires_at := "2025-01-01T12:00:00";
         Chat.Excel.selected := false |} ]
|}.

Definition config_loaded (selectedTable : string) : TableConfig.State := {|
  TableConfig.tables := [orders];
  TableConfig.availableTables := ["orders"; "customers"];
  TableConfig.selectedTable := selectedTable;
  TableConfig.loadingStates := [("orders", false)];
  TableConfig.addingTable := false;
  TableConfig.error := None
|}.

End Sample.

(* ================================================================== *)
(** ** Result rows in the chat view ([App.js], lines 309-319, 498-524) *)

Module Results.

(** [expandedMessages], a [Set] of message indices: its elements in
    insertion order. *)
Definition IndexSet : Type := list nat.

(** [s.has(index)] *)
Definition has (s : IndexSet) (index : nat) : bool :=
  existsb (Nat.eqb index) s.

(** [s.delete(index)] *)
Definition delete (s : IndexSet) (index : nat) : IndexSet :=
  filter (fun i => negb (i =? index)%nat) s.

(** [s.add(index)] *)
Definition add (s : IndexSet) (index : nat) : IndexSet :=
  if has s index then s else s ++ [index].

(** [new Set(prev)] *)
Definition copy (prev : IndexSet) : IndexSet := fold_left add prev [].

(** The updater [toggleExpand] passes to [setExpandedMessages]. *)
Definition toggleExpand (index : nat) (prev : IndexSet) : IndexSet :=
  let newSet := copy prev in
  if has newSet index then delete newSet index else add newSet index.

(** [message.data.slice(0, expandedMessages.has(index) ? undefined : 5)] *)
Definition shownRows (data : list Row) (expandedMessages : IndexSet)
    (index : nat) : list Row :=
  if has expandedMessages index then data else firstn 5 data.

(** [message.data.length > 5], the condition under which the button that
    calls [toggleExpand] is rendered. *)
Definition hasExpandButton (data : list Row) : bool :=
  (5 <? List.length data)%nat.

End Results.

(* ================================================================== *)
(** ** Category keys of a rowset *)

Module Category.
Section WithEngine.
Context {E : Engine}.

(** The property key under which a row is counted: [row[col]] converted
    to a string. *)
Definition key (col : option string) (row : Row) : string :=
  Js.ToString (Chart.get_opt row col).

(** How many rows of [data] have the key [k]. *)
Definition occurrences (col : option string) (k : string) (data : list Row) : N :=
  N.of_nat (List.length (filter (fun row => (key col row =? k)) data)).

End WithEngine.
End Category.

(* ================================================================== *)
(** ** The order of keys *)

Module KeyOrder.

Definition is_index (k : string) : bool :=
  match JsObj.array_index k with Some _ => true | None => false end.

Definition index_value (k : string) : N :=
  match JsObj.array_index k with Some i => i | None => 0%N end.

(** Each number is at most every later one. *)
Fixpoint ascending (l : list N) : Prop :=
  match l with
  | [] => True
  | a :: l' => Forall (N.le a) l' /\ ascending l'
  end.

Definition add_new (acc : list string) (k : string) : list string :=
  if existsb (String.eqb k) acc then acc else acc ++ [k].

(** The distinct elements of a list, each at the place of its first
    occurrence. *)
Definition first_occurrences (l : list string) : list string :=
  fold_left add_new l [].

(** A key that becomes a label after the array-index labels: neither an
    array index nor [__proto__]. *)
Definition plain (k : string) : bool :=
  negb (is_index k) && negb (k =? "__proto__").

End KeyOrder.

(* ================================================================== *)
(** ** The rest of the [TableConfig] component ([TableConfig.js], lines
    128-252) *)

Module ConfigView.

(** The calls of the configuration view: those shared with the chat view
    and its own mutating calls. *)
Inductive Call :=
| Http (call : HttpCall)
| DELETE_tables (tableName : string)
| PUT_tables (tableName : string) (description : JsValue)
| POST_upload_excel (file : string)
| DELETE_excel_tables (tableName : string).

(** What the service answers to each call of the view.  [base] holds the
    answers to the calls also made by the chat view; a file is known by its
    name. *)
Record Service := {
  base : Backend;
  get_available_tables : Result (list string);
  delete_tables : string -> Result unit;
  put_tables : string -> JsValue -> Result unit;
  post_upload_excel : string -> Result unit;
  delete_excel_tables : string -> Result unit
}.

(** The state of the view: the part modelled in [TableConfig.State], the
    list of uploads and the upload flag. *)
Record State := {
  config : TableConfig.State;
  excelTables : list ExcelTableInfo;
  uploadingExcel : bool
}.

Definition setConfig (c : TableConfig.State) (st : State) : State :=
  {| config := c; excelTables := excelTables st;
     uploadingExcel := uploadingExcel st |}.

Definition setExcelTables (l : list ExcelTableInfo) (st : State) : State :=
  {| config := config st; excelTables := l;
     uploadingExcel := uploadingExcel st |}.

Definition setUploadingExcel (b : bool) (st : State) : State :=
  {| config := config st; excelTables := excelTables st; uploadingExcel := b |}.

Definition setAvailableTables (l : list string) (st : State) : State :=
  setConfig
    {| TableConfig.tables := TableConfig.tables (config st);
       TableConfig.availableTables := l;
       TableConfig.selectedTable := TableConfig.selectedTable (config st);
       TableConfig.loadingStates := TableConfig.loadingStates (config st);
       TableConfig.addingTable := TableConfig.addingTable (config st);
       TableConfig.error := TableConfig.error (config st) |} st.

Definition setError (e : option JsValue) (st : State) : State :=
  setConfig
    {| TableConfig.tables := TableConfig.tables (config st);
       TableConfig.availableTables := TableConfig.availableTables (config st);
       TableConfig.selectedTable := TableConfig.selectedTable (config st);
       TableConfig.loadingStates := TableConfig.loadingStates (config st);
       TableConfig.addingTable := TableConfig.addingTable (config st);
       TableConfig.error := e |} st.

Definition loadExcelTables (sv : Service) (st : State) : State * list Call :=
  match get_excel_tables (base sv) with
  | Resolved response_data =>
      (setExcelTables response_data st, [Http GET_excel_tables])
  | Rejected _ => (st, [Http GET_excel_tables])
  end.

Definition loadAvailableTables (sv : Service) (st : State) : State * list Call :=
  match get_available_tables sv with
  | Resolved tables => (setAvailableTables tables st, [Http GET_available_tables])
  | Rejected _ => (st, [Http GET_available_tables])
  end.

Definition loadTables (sv : Service) (st : State) : State * list Call :=
  let (c, calls) := TableConfig.loadTables (base sv) (config st) in
  (setConfig c st, map Http calls).

(** [table.description === "Analyzing table structure..."] *)
Definition pending (table : TableInfo) : bool :=
  Js.strict_eq_string (table_description table) TableConfig.analyzing.

(** One firing of the 2-second interval.  The effect keeps the interval
    only while [hasLoadingTables] holds of the current [loadingStates]. *)
Definition poll (sv : Service) (st : State) : State * list Call :=
  if TableConfig.hasLoadingTables (config st) then loadTables sv st
  else (st, []).

(** [deleteTable]; [confirmed] is the answer of [window.confirm]. *)
Definition deleteTable (sv : Service) (confirmed : bool) (tableName : string)
    (st : State) : State * list Call :=
  if negb confirmed then (st, [])
  else
    match delete_tables sv tableName with
    | Resolved _ =>
        let (st1, calls1) := loadTables sv st in
        let (st2, calls2) := loadAvailableTables sv st1 in
        (st2, DELETE_tables tableName :: calls1 ++ calls2)
    | Rejected _ => (st, [DELETE_tables tableName])
    end.

Definition updateTableDescription (sv : Service) (tableName : string)
    (description : JsValue) (st : State) : State * list Call :=
  match put_tables sv tableName description with
  | Resolved _ =>
      let (st1, calls1) := loadTables sv st in
      (st1, PUT_tables tableName description :: calls1)
  | Rejected _ => (st, [PUT_tables tableName description])
  end.

Definition upload_fallback : string := "Error uploading Excel file".

(** [handleExcelUpload]; [file] is [event.target.files[0]], [None] when
    the list is empty.  Clearing the file input afterwards is left out. *)
Definition handleExcelUpload (sv : Service) (file : option string)
    (st : State) : State * list Call :=
  match file with
  | None => (st, [])
  | Some f =>
      let st1 := setError None (setUploadingExcel true st) in
      match post_upload_excel sv f with
      | Resolved _ =>
          let (st2, calls) := loadExcelTables sv st1 in
          (setUploadingExcel false st2, POST_upload_excel f :: calls)
      | Rejected err =>
          (setUploadingExcel false
             (setError (Some (Js.or_else (error_detail err) (JStr upload_fallback)))
                st1),
           [POST_upload_excel f])
      end
  end.

Definition deleteExcelTable (sv : Service) (confirmed : bool) (tableName : string)
    (st : State) : State * list Call :=
  if negb confirmed then (st, [])
  else
    match delete_excel_tables sv tableName with
    | Resolved _ =>
        let (st1, calls1) := loadExcelTables sv st in
        (st1, DELETE_excel_tables tableName :: calls1)
    | Rejected _ => (st, [DELETE_excel_tables tableName])
    end.

End ConfigView.

(* ================================================================== *)
(** ** More sample data *)

Module Fixture.

Definition customers : TableInfo := {|
  table_name := "customers";
  table_columns := [("id", "integer"); ("name", "text")];
  table_description := JStr "Customer master data"
|}.

(** A rowset of seven one-column rows. *)
Definition week : list Row :=
  map Sample.status ["mon"; "tue"; "wed"; "thu"; "fri"; "sat"; "sun"].

(** A service that refuses every mutating call with [detail]. *)
Definition refusing (detail : option JsValue) : ConfigView.Service := {|
  ConfigView.base := Sample.catalog [Sample.orders];
  ConfigView.get_available_tables := Resolved ["orders"; "customers"];
  ConfigView.delete_tables := fun _ => Rejected (Response detail);
  ConfigView.put_tables := fun _ _ => Rejected (Response detail);
  ConfigView.post_upload_excel := fun _ => Rejected (Response detail);
  ConfigView.delete_excel_tables := fun _ => Rejected (Response detail)
|}.

(** A service that accepts every mutating call and serves [tables]. *)
Definition accepting (tables : list TableInfo) : ConfigView.Service := {|
  ConfigView.base := Sample.catalog tables;
  ConfigView.get_available_tables := Resolved ["orders"; "customers"];
  ConfigView.delete_tables := fun _ => Resolved tt;
  ConfigView.put_tables := fun _ _ => Resolved tt;
  ConfigView.post_upload_excel := fun _ => Resolved tt;
  ConfigView.delete_excel_tables := fun _ => Resolved tt
|}.

Definition view (selectedTable : string) : ConfigView.State := {|
  ConfigView.config := Sample.config_loaded selectedTable;
  ConfigView.excelTables := [Sample.upload];
  ConfigView.uploadingExcel := false
|}.


(** A service that answers every question with [response]. *)
Definition answering (response : ChatResponse) : Backend := {|
  get_tables := Resolved [Sample.orders];
  get_excel_tables := Resolved [Sample.upload];
  post_tables := fun _ => Resolved tt;
  post_chat := fun _ _ => Resolved response
|}.

Definition total_sales : ChatResponse := {|
  answer := JStr "Total sales are 215.";
  sql_query := JStr "SELECT SUM(amount) FROM orders";
  data := Some [[("sum", JNum 215)]]
|}.

End Fixture.

(* ================================================================== *)
(** * Properties *)

(** ** Strings *)

Module JsStringFacts.
Import JsString.

Lemma drop_while_all p s : all p s = true -> drop_while p s = "".
Proof.
  induction s as [|c s IH]; simpl; [reflexivity|].
  destruct (p c); simpl; [exact IH | discriminate].
Qed.

Lemma all_drop_while p s : all p s = false -> all p (drop_while p s) = false.
Proof.
  induction s as [|c s IH]; simpl; [discriminate|].
  destruct (p c) eqn:Hc; simpl; [exact IH | now rewrite Hc].
Qed.

Lemma all_rev_onto p s acc : all p (rev_onto s acc) = all p s && all p acc.
Proof.
  revert acc; induction s as [|c s IH]; intros acc; simpl; [reflexivity|].
  rewrite IH; simpl. destruct (p c), (all p s); reflexivity.
Qed.

Lemma all_rev p s : all p (rev s) = all p s.
Proof. unfold rev. rewrite all_rev_onto. simpl. apply andb_true_r. Qed.

Lemma all_empty p s : is_empty s = true -> all p s = true.
Proof. destruct s; [reflexivity | discriminate]. Qed.

(** [input.trim()] is the empty string exactly when every code unit of
    [input] is white space. *)
Lemma trim_empty_iff s : is_empty (trim s) = all is_white s.
Proof.
  unfold trim, trimEnd, trimStart.
  destruct (all is_white s) eqn:Hs.
  - rewrite (drop_while_all _ _ Hs). reflexivity.
  - destruct (is_empty _) eqn:He; [|reflexivity].
    apply (all_empty is_white) in He.
    rewrite all_rev in He.
    destruct (all is_white (rev (drop_while is_white s))) eqn:Hr.
    + rewrite all_rev in Hr. rewrite (all_drop_while _ _ Hs) in Hr. discriminate.
    + rewrite (all_drop_while _ _ Hr) in He. discriminate.
Qed.

End JsStringFacts.

(** ** Lists *)

Module ListFacts.

Lemma filter_none {A} (p : A -> bool) (l : list A) :
  (forall a, In a l -> p a = false) -> filter p l = [].
Proof.
  induction l as [|a l IH]; simpl; intros H; [reflexivity|].
  rewrite (H a (or_introl eq_refl)). apply IH. intros b Hb. apply H. now right.
Qed.

End ListFacts.

(** ** Query submission *)

Module ChatFacts.
Import Chat.

(** C9.  Whatever the state and the service, submitting while the input
    is empty or holds white space only leaves the state as it is, so no
    message of any kind joins the log, and issues no HTTP call; this holds
    with nothing selected too, as the check of the selection comes after
    the check of the input. *)
Theorem handleSubmit_blank_input (be : Backend) (st : State) :
  JsString.all JsString.is_white (input st) = true ->
  handleSubmit be st = (st, []).
Proof.
  intros Hblank. unfold handleSubmit.
  now rewrite JsStringFacts.trim_empty_iff, Hblank.
Qed.

Lemma handleSubmit_blank_input_witness :
  JsString.all JsString.is_white (input (setInput "   " Sample.chat_loaded)) = true /\
  handleSubmit Sample.offline (setInput "   " Sample.chat_loaded)
  = (setInput "   " Sample.chat_loaded, []).
Proof.
  split; [reflexivity|].
  apply (handleSubmit_blank_input Sample.offline (setInput "   " Sample.chat_loaded)).
  reflexivity.
Defined.

Lemma nothing_selected (st : State) :
  (forall t, In t (availableTables st) -> Pg.selected t = false) ->
  (forall t, In t (excelTables st) -> Excel.selected t = false) ->
  allSelectedTables st = [].
Proof.
  intros Hpg Hex. unfold allSelectedTables.
  now rewrite (ListFacts.filter_none _ _ Hpg), (ListFacts.filter_none _ _ Hex).
Qed.

(** C5, amended.  With an input that holds a character other than white
    space and no resource selected in either list, submitting issues no HTTP
    call and appends one error message with the fixed text, and nothing
    else. *)
Theorem handleSubmit_nothing_selected (be : Backend) (st : State) :
  JsString.all JsString.is_white (input st) = false ->
  (forall t, In t (availableTables st) -> Pg.selected t = false) ->
  (forall t, In t (excelTables st) -> Excel.selected t = false) ->
  snd (handleSubmit be st) = [] /\
  messages (fst (handleSubmit be st))
  = messages st ++ [error (JStr "Please select at least one table to query.")].
Proof.
  intros Hinput Hpg Hex. unfold handleSubmit.
  rewrite JsStringFacts.trim_empty_iff, Hinput.
  rewrite (nothing_selected st Hpg Hex). simpl. split; reflexivity.
Qed.

Lemma handleSubmit_nothing_selected_witness :
  snd (handleSubmit Sample.offline (setInput "total sales?" Sample.chat_loaded)) = [] /\
  messages (fst (handleSubmit Sample.offline (setInput "total sales?" Sample.chat_loaded)))
  = [error (JStr "Please select at least one table to query.")].
Proof.
  apply (handleSubmit_nothing_selected Sample.offline
           (setInput "total sales?" Sample.chat_loaded)).
  - reflexivity.
  - simpl. intros t [<-|[]]. reflexivity.
  - simpl. intros t [<-|[]]. reflexivity.
Defined.

(** C5 as stated fails: in the state right after mount nothing is selected
    and the input is empty; submitting appends no error message. *)
Lemma handleSubmit_nothing_selected_blank_counterexample :
  allSelectedTables Sample.chat_loaded = [] /\
  ~ (exists content,
       messages (fst (handleSubmit Sample.offline Sample.chat_loaded))
       = messages Sample.chat_loaded ++ [error content]).
Proof.
  split; [reflexivity|].
  intros [content H]. simpl in H. discriminate H.
Qed.

(** C8.  When the question goes out (the input is not blank and a resource
    is selected) and the call is rejected, the handler has made that one
    call and no other, and the log has grown by the user's message followed
    by one error message.  The error message carries
    [error.response?.data?.detail] when that is a truthy value, which is the
    sense in which a detail is present, and the fallback text otherwise. *)
Theorem handleSubmit_backend_failure (be : Backend) (st : State) (e : AxiosError) :
  JsString.all JsString.is_white (input st) = false ->
  allSelectedTables st <> [] ->
  post_chat be (input st) (allSelectedTables st) = Rejected e ->
  snd (handleSubmit be st) = [POST_chat (input st) (allSelectedTables st)] /\
  messages (fst (handleSubmit be st))
  = messages st ++
    [ user (input st);
      error (if Js.truthy (error_detail e) then error_detail e
             else JStr "Sorry, there was an error processing your request.") ].
Proof.
  intros Hinput Hsel Hfail. unfold handleSubmit.
  rewrite JsStringFacts.trim_empty_iff, Hinput.
  destruct (allSelectedTables st) as [|n ns] eqn:Hall; [congruence|].
  cbn [List.length Nat.eqb]. rewrite Hfail. cbn [fst snd].
  split; [reflexivity|].
  cbn. rewrite <- app_assoc. reflexivity.
Qed.

Lemma handleSubmit_backend_failure_witness :
  let st := setInput "total sales?"
              (toggleTableSelection "orders" false Sample.chat_loaded) in
  let be := Sample.serving (Some (JStr "relation does not exist")) in
  snd (handleSubmit be st) = [POST_chat "total sales?" ["orders"]] /\
  messages (fst (handleSubmit be st))
  = [user "total sales?"; error (JStr "relation does not exist")].
Proof.
  apply (handleSubmit_backend_failure
           (Sample.serving (Some (JStr "relation does not exist")))
           (setInput "total sales?"
              (toggleTableSelection "orders" false Sample.chat_loaded))
           (Response (Some (JStr "relation does not exist")))).
  - reflexivity.
  - simpl. discriminate.
  - reflexivity.
Defined.

(** Without a response, or with a body that has no detail, the fallback
    text is shown. *)
Example handleSubmit_backend_failure_fallback :
  let st := setInput "total sales?"
              (toggleTableSelection "orders" false Sample.chat_loaded) in
  messages (fst (handleSubmit Sample.offline st))
  = [user "total sales?"; error (JStr fallback_message)] /\
  messages (fst (handleSubmit (Sample.serving None) st))
  = [user "total sales?"; error (JStr fallback_message)].
Proof. split; reflexivity. Qed.

(** ** Catalog refresh in the chat view *)

Lemma existsb_selected_false_excel (l : list ExcelTableInfo) (R : string) :
  existsb (fun table => (Excel.name table =? R) && Excel.selected table)
    (map (fun table =>
            {| Excel.name := excel_name table;
               Excel.original_filename := excel_original_filename table;
               Excel.expires_at := excel_expires_at table;
               Excel.selected := false |}) l) = false.
Proof.
  induction l as [|a l IH]; simpl; [reflexivity|].
  now rewrite andb_false_r, IH.
Qed.

Lemma existsb_selected_false_pg (l : list TableInfo) (R : string) :
  existsb (fun table => (Pg.name table =? R) && Pg.selected table)
    (map (fun table => {| Pg.name := table_name table; Pg.selected := false |}) l)
  = false.
Proof.
  induction l as [|a l IH]; simpl; [reflexivity|].
  now rewrite andb_false_r, IH.
Qed.

(** C1, amended.  What the two loaders of the chat view do to the
    selection of a resource named [R].  [loadExcelTables], the periodic
    refresh, never touches the persistent list; when its fetch fails it
    changes nothing; when its fetch succeeds the ephemeral list becomes the
    snapshot, name for name, with every entry unselected.  [loadTables] does
    the same to the persistent list and leaves the ephemeral one alone. *)
Theorem refresh_selection (be : Backend) (st : State) (R : string) :
  pg_selected (fst (loadExcelTables be st)) R = pg_selected st R /\
  match get_excel_tables be with
  | Resolved snapshot =>
      map Excel.name (excelTables (fst (loadExcelTables be st)))
      = map excel_name snapshot /\
      excel_selected (fst (loadExcelTables be st)) R = false
  | Rejected _ => fst (loadExcelTables be st) = st
  end /\
  excel_selected (fst (loadTables be st)) R = excel_selected st R /\
  match get_tables be with
  | Resolved snapshot =>
      map Pg.name (availableTables (fst (loadTables be st)))
      = map table_name snapshot /\
      pg_selected (fst (loadTables be st)) R = false
  | Rejected _ => fst (loadTables be st) = st
  end.
Proof.
  unfold loadExcelTables, loadTables, pg_selected, excel_selected.
  destruct (get_excel_tables be) as [ex|e1], (get_tables be) as [pg|e2]; cbn;
    rewrite ?map_map, ?existsb_selected_false_excel, ?existsb_selected_false_pg;
    repeat split; reflexivity.
Qed.

(** C1 as stated fails: select the upload, then let the refresh fetch a
    snapshot that still lists it; the upload is no longer selected. *)
Lemma refresh_deselects_counterexample :
  let st := toggleTableSelection "excel_sales_1" true Sample.chat_loaded in
  let be := Sample.serving None in
  excel_selected st "excel_sales_1" = true /\
  get_excel_tables be = Resolved [Sample.upload] /\
  excel_name Sample.upload = "excel_sales_1" /\
  excel_selected (fst (loadExcelTables be st)) "excel_sales_1" = false.
Proof. repeat split; reflexivity. Qed.

End ChatFacts.

(** ** Own properties of plain objects *)

Module JsObjFacts.
Import JsObj.

Section Facts.
Context {V : Type}.
Implicit Types (o : t V) (k : string) (v : V).

Lemma has_own_get o k : has_own o k = false -> own_get o k = None.
Proof. unfold has_own. destruct (own_get o k); [discriminate | reflexivity]. Qed.

Lemma own_get_replace_same o k v :
  has_own o k = true -> own_get (replace o k v) k = Some v.
Proof.
  unfold has_own. induction o as [|[k' v'] o IH]; simpl; [discriminate|].
  destruct (k' =? k) eqn:Hk; simpl; rewrite Hk; [reflexivity | exact IH].
Qed.

Lemma own_get_replace_other o k k' v :
  k <> k' -> own_get (replace o k v) k' = own_get o k'.
Proof.
  intros Hne. induction o as [|[k0 v0] o IH]; simpl; [reflexivity|].
  destruct (k0 =? k) eqn:Hk; simpl.
  - apply String.eqb_eq in Hk. subst k0.
    now rewrite (proj2 (String.eqb_neq k k') Hne).
  - now rewrite IH.
Qed.

Lemma own_get_insert_index_same i o k v :
  own_get o k = None -> own_get (insert_index i k v o) k = Some v.
Proof.
  induction o as [|[k' v'] o IH]; simpl; intros Hnone.
  - now rewrite String.eqb_refl.
  - destruct (k' =? k) eqn:Hk; [discriminate|].
    destruct (array_index k') as [j|]; [destruct (j <? i)%N|]; simpl;
      rewrite ?Hk, ?String.eqb_refl; auto.
Qed.

Lemma own_get_insert_index_other i o k k' v :
  k <> k' -> own_get (insert_index i k v o) k' = own_get o k'.
Proof.
  intros Hne. apply String.eqb_neq in Hne.
  induction o as [|[k0 v0] o IH]; simpl.
  - now rewrite Hne.
  - destruct (array_index k0) as [j|]; [destruct (j <? i)%N|]; simpl;
      rewrite ?Hne, ?IH; reflexivity.
Qed.

Lemma own_get_app o o' k :
  own_get (o ++ o') k
  = match own_get o k with Some v => Some v | None => own_get o' k end.
Proof.
  induction o as [|[k0 v0] o IH]; simpl; [reflexivity|].
  destruct (k0 =? k); [reflexivity | exact IH].
Qed.

Lemma own_get_add_own_same o k v :
  own_get o k = None -> own_get (add_own o k v) k = Some v.
Proof.
  intros Hnone. unfold add_own. destruct (array_index k).
  - now apply own_get_insert_index_same.
  - rewrite own_get_app, Hnone. simpl. now rewrite String.eqb_refl.
Qed.

Lemma own_get_add_own_other o k k' v :
  k <> k' -> own_get (add_own o k v) k' = own_get o k'.
Proof.
  intros Hne. unfold add_own. destruct (array_index k).
  - now apply own_get_insert_index_other.
  - rewrite own_get_app. simpl.
    rewrite (proj2 (String.eqb_neq k k') Hne). now destruct (own_get o k').
Qed.

(** A property just defined is an own property with that value. *)
Lemma own_get_define_same o k v : own_get (define o k v) k = Some v.
Proof.
  unfold define. destruct (has_own o k) eqn:Hown.
  - now apply own_get_replace_same.
  - apply own_get_add_own_same. now apply has_own_get.
Qed.

Lemma own_get_set_same o k v :
  k <> "__proto__" -> own_get (set o k v) k = Some v.
Proof.
  intros Hk. unfold set. destruct (has_own o k) eqn:Hown.
  - now apply own_get_replace_same.
  - rewrite (proj2 (String.eqb_neq _ _) Hk).
    apply own_get_add_own_same. now apply has_own_get.
Qed.

Lemma own_get_set_other o k k' v :
  k <> k' -> own_get (set o k v) k' = own_get o k'.
Proof.
  intros Hne. unfold set. destruct (has_own o k).
  - now apply own_get_replace_other.
  - destruct (k =? "__proto__"); [reflexivity|].
    now apply own_get_add_own_other.
Qed.

(** An assignment to [__proto__] of a primitive leaves an object that has
    no such own property as it was. *)
Lemma set_proto_ignored o v :
  has_own o "__proto__" = false -> set o "__proto__" v = o.
Proof. intros Hown. unfold set. now rewrite Hown. Qed.

End Facts.
End JsObjFacts.

(** ** Chart inference *)

Module ChartFacts.
Import Chart.

Lemma first_filter_unique {A} (p : A -> bool) (l : list A) (d : A) :
  In d l -> p d = true ->
  (forall c, In c l -> p c = true -> c = d) ->
  first (filter p l) = Some d.
Proof.
  induction l as [|a l IH]; simpl; intros Hin Hd Huniq; [contradiction|].
  destruct (p a) eqn:Ha.
  - cbn. f_equal. apply Huniq; auto.
  - destruct Hin as [->|Hin]; [congruence|].
    apply IH; auto.
Qed.

Lemma first_some_nonempty {A} (l : list A) (a : A) :
  first l = Some a -> (0 <? List.length l)%nat = true.
Proof. destruct l; [discriminate | reflexivity]. Qed.

Lemma nonempty_first {A} (p : A -> bool) (l : list A) :
  (0 <? List.length (filter p l))%nat = true ->
  exists c, first (filter p l) = Some c /\ In c l /\ p c = true.
Proof.
  destruct (filter p l) as [|c r] eqn:Hf; [discriminate|]. intros _.
  exists c. split; [reflexivity|].
  apply filter_In. rewrite Hf. now left.
Qed.

(** The two classes of the source are complementary. *)
Lemma is_numeric_not_categorical {E : Engine} (row0 : Row) (col : string) :
  is_numeric row0 col = negb (is_categorical row0 col).
Proof. unfold is_numeric, is_categorical. now rewrite negb_orb. Qed.

(** C2.  Let the first row have a column [d] that is categorical and
    parses as a date, and no other such column, and a numeric column [n],
    and no other numeric column.  Then inference returns a line chart with
    x bound to [d] and y bound to [n].  The row is arbitrary, so the order
    of its columns, and further categorical columns that are not dates,
    make no difference. *)
Theorem determineChartType_date_numeric {E : Engine}
    (row0 : Row) (rest : list Row) (d n : string) :
  In d (JsObj.keys row0) ->
  is_categorical row0 d = true -> is_date_like row0 d = true ->
  (forall c, In c (JsObj.keys row0) ->
     is_categorical row0 c = true -> is_date_like row0 c = true -> c = d) ->
  In n (JsObj.keys row0) ->
  is_numeric row0 n = true ->
  (forall c, In c (JsObj.keys row0) -> is_numeric row0 c = true -> c = n) ->
  determineChartType (Some (row0 :: rest)) = Some (line (Some d) (Some n)).
Proof.
  intros Hd Hcat Hdate Hduniq Hn Hnum Hnuniq.
  assert (Hfd : first (possibleDateColumns row0) = Some d).
  { unfold possibleDateColumns, categoricalColumns.
    apply first_filter_unique; auto.
    - apply filter_In. auto.
    - intros c Hc Hcd. apply filter_In in Hc as [Hc Hcc]. auto. }
  assert (Hfn : first (numericColumns row0) = Some n).
  { unfold numericColumns. apply first_filter_unique; auto. }
  unfold determineChartType.
  rewrite (first_some_nonempty _ _ Hfd), (first_some_nonempty _ _ Hfn).
  cbn [andb]. now rewrite Hfd, Hfn.
Qed.

Lemma determineChartType_date_numeric_witness :
  @determineChartType Sample.engine
    (Some [Sample.sale "2024-01-01" 120; Sample.sale "2024-01-02" 95])
  = Some (line (Some "day") (Some "amount")) /\
  @determineChartType Sample.engine
    (Some [Sample.sale_swapped "2024-01-01" 120; Sample.sale_swapped "2024-01-02" 95])
  = Some (line (Some "day") (Some "amount")).
Proof.
  split.
  - apply (@determineChartType_date_numeric Sample.engine
             (Sample.sale "2024-01-01" 120) [Sample.sale "2024-01-02" 95]
             "day" "amount").
    + simpl. auto.
    + reflexivity.
    + reflexivity.
    + simpl. intros c [<-|[<-|[]]] Hc Hdt; [reflexivity | discriminate Hc].
    + simpl. auto.
    + reflexivity.
    + simpl. intros c [<-|[<-|[]]] Hc; [discriminate Hc | reflexivity].
  - apply (@determineChartType_date_numeric Sample.engine
             (Sample.sale_swapped "2024-01-01" 120)
             [Sample.sale_swapped "2024-01-02" 95] "day" "amount").
    + simpl. auto.
    + reflexivity.
    + reflexivity.
    + simpl. intros c [<-|[<-|[]]] Hc Hdt; [discriminate Hc | reflexivity].
    + simpl. auto.
    + reflexivity.
    + simpl. intros c [<-|[<-|[]]] Hc; [reflexivity | discriminate Hc].
Defined.

(** C3.  Let the first row have one categorical column [c], which does
    not parse as a date, and one numeric column [n].  Then inference binds
    x to [c] and y to [n], in a bar chart when the rowset has at most 10
    rows and in a line chart when it has more, 11 rows included. *)
Theorem determineChartType_category_numeric {E : Engine}
    (row0 : Row) (rest : list Row) (c n : string) :
  In c (JsObj.keys row0) ->
  is_categorical row0 c = true -> is_date_like row0 c = false ->
  (forall c', In c' (JsObj.keys row0) -> is_categorical row0 c' = true -> c' = c) ->
  In n (JsObj.keys row0) ->
  is_numeric row0 n = true ->
  (forall n', In n' (JsObj.keys row0) -> is_numeric row0 n' = true -> n' = n) ->
  determineChartType (Some (row0 :: rest))
  = if (List.length (row0 :: rest) <=? 10)%nat
    then Some (bar (Some c) (Some n))
    else Some (line (Some c) (Some n)).
Proof.
  intros Hc Hcat Hdate Hcuniq Hn Hnum Hnuniq.
  assert (Hfc : first (categoricalColumns row0) = Some c).
  { unfold categoricalColumns. apply first_filter_unique; auto. }
  assert (Hfn : first (numericColumns row0) = Some n).
  { unfold numericColumns. apply first_filter_unique; auto. }
  assert (Hnodate : possibleDateColumns row0 = []).
  { unfold possibleDateColumns, categoricalColumns.
    apply ListFacts.filter_none. intros a Ha.
    apply filter_In in Ha as [Ha Hac].
    now rewrite (Hcuniq a Ha Hac). }
  unfold determineChartType.
  rewrite Hnodate, (first_some_nonempty _ _ Hfc), (first_some_nonempty _ _ Hfn).
  cbn [List.length Nat.ltb Nat.leb andb]. now rewrite Hfc, Hfn.
Qed.

Lemma determineChartType_category_numeric_witness :
  @determineChartType Sample.engine (Some Sample.revenue_rows)
  = Some (line (Some "month") (Some "revenue")) /\
  @determineChartType Sample.engine (Some (firstn 10 Sample.revenue_rows))
  = Some (bar (Some "month") (Some "revenue")).
Proof.
  split.
  - apply (@determineChartType_category_numeric Sample.engine
             (Sample.revenue "Jan" 10) (tl Sample.revenue_rows) "month" "revenue").
    + simpl. auto.
    + reflexivity.
    + reflexivity.
    + simpl. intros c [<-|[<-|[]]] Hc; [reflexivity | discriminate Hc].
    + simpl. auto.
    + reflexivity.
    + simpl. intros c [<-|[<-|[]]] Hc; [discriminate Hc | reflexivity].
  - apply (@determineChartType_category_numeric Sample.engine
             (Sample.revenue "Jan" 10) (tl (firstn 10 Sample.revenue_rows))
             "month" "revenue").
    + simpl. auto.
    + reflexivity.
    + reflexivity.
    + simpl. intros c [<-|[<-|[]]] Hc; [reflexivity | discriminate Hc].
    + simpl. auto.
    + reflexivity.
    + simpl. intros c [<-|[<-|[]]] Hc; [discriminate Hc | reflexivity].
Defined.

(** C10.  A chart returned for a rowset with first row [row0] binds only
    columns of [row0]: a bar or line chart has both bindings defined, x a
    categorical column and y a numeric column of [row0], hence two different
    columns; a pie chart has its category defined and among the columns of
    [row0]. *)
Theorem determineChartType_bindings {E : Engine}
    (row0 : Row) (rest : list Row) (info : ChartInfo) :
  determineChartType (Some (row0 :: rest)) = Some info ->
  match info with
  | line x y | bar x y =>
      exists cx cy,
        x = Some cx /\ y = Some cy /\
        In cx (JsObj.keys row0) /\ In cy (JsObj.keys row0) /\
        is_categorical row0 cx = true /\ is_numeric row0 cy = true /\
        cx <> cy
  | pie category =>
      exists c, category = Some c /\ In c (JsObj.keys row0)
  end.
Proof.
  assert (Hxy : forall cx cy,
             is_categorical row0 cx = true -> is_numeric row0 cy = true -> cx <> cy).
  { intros cx cy Hx Hy ->. rewrite is_numeric_not_categorical, Hx in Hy. discriminate. }
  assert (Hdate : (0 <? List.length (possibleDateColumns row0))%nat = true ->
            exists cx, first (possibleDateColumns row0) = Some cx /\
                       In cx (JsObj.keys row0) /\ is_categorical row0 cx = true).
  { unfold possibleDateColumns, categoricalColumns. intros H.
    apply nonempty_first in H as (cx & Hf & Hin & _).
    apply filter_In in Hin as [Hin Hcx]. eauto. }
  assert (Hcat : (0 <? List.length (categoricalColumns row0))%nat = true ->
            exists cx, first (categoricalColumns row0) = Some cx /\
                       In cx (JsObj.keys row0) /\ is_categorical row0 cx = true).
  { unfold categoricalColumns. intros H. now apply nonempty_first in H. }
  assert (Hnum : (0 <? List.length (numericColumns row0))%nat = true ->
            exists cy, first (numericColumns row0) = Some cy /\
                       In cy (JsObj.keys row0) /\ is_numeric row0 cy = true).
  { unfold numericColumns. intros H. now apply nonempty_first in H. }
  unfold determineChartType.
  destruct (0 <? List.length (possibleDateColumns row0))%nat;
  destruct (0 <? List.length (numericColumns row0))%nat;
  destruct (0 <? List.length (categoricalColumns row0))%nat;
  destruct (List.length (row0 :: rest) <=? 10)%nat;
  cbn [andb]; intros H; inversion H; subst info; clear H;
  try (destruct (Hdate eq_refl) as (cx & Hfx & Hinx & Hcx));
  try (destruct (Hnum eq_refl) as (cy & Hfy & Hiny & Hcy));
  try (destruct (Hcat eq_refl) as (cc & Hfc & Hinc & Hcc));
  eauto 12.
Qed.

Lemma determineChartType_bindings_witness :
  exists cx cy,
    Some "month" = Some cx /\ Some "revenue" = Some cy /\
    In cx (JsObj.keys (Sample.revenue "Jan" 10)) /\
    In cy (JsObj.keys (Sample.revenue "Jan" 10)) /\
    @is_categorical Sample.engine (Sample.revenue "Jan" 10) cx = true /\
    @is_numeric Sample.engine (Sample.revenue "Jan" 10) cy = true /\
    cx <> cy.
Proof.
  apply (@determineChartType_bindings Sample.engine
           (Sample.revenue "Jan" 10) (tl Sample.revenue_rows)
           (line (Some "month") (Some "revenue"))).
  reflexivity.
Defined.

(** *** Pie charts *)

(** A rowset of at most 10 rows whose first row has a categorical column
    and no numeric column gets a pie chart on the first categorical
    column. *)
Lemma determineChartType_category_only {E : Engine}
    (row0 : Row) (rest : list Row) (c : string) :
  In c (JsObj.keys row0) ->
  is_categorical row0 c = true ->
  (forall c', In c' (JsObj.keys row0) -> is_categorical row0 c' = true -> c' = c) ->
  (forall n, In n (JsObj.keys row0) -> is_numeric row0 n = false) ->
  (List.length (row0 :: rest) <= 10)%nat ->
  determineChartType (Some (row0 :: rest)) = Some (pie (Some c)).
Proof.
  intros Hc Hcat Huniq Hnonum Hlen.
  assert (Hfc : first (categoricalColumns row0) = Some c).
  { unfold categoricalColumns. apply first_filter_unique; auto. }
  assert (Hnum : numericColumns row0 = []).
  { unfold numericColumns. now apply ListFacts.filter_none. }
  apply Nat.leb_le in Hlen.
  unfold determineChartType.
  rewrite Hlen, Hnum, (first_some_nonempty _ _ Hfc).
  change (0 <? List.length (@nil string))%nat with false.
  rewrite !andb_false_r. cbn [andb]. now rewrite Hfc.
Qed.

Lemma total_app (l1 l2 : list CatVal) : total (l1 ++ l2) = (total l1 + total l2)%N.
Proof. induction l1 as [|v l1 IH]; simpl; [reflexivity | rewrite IH; lia]. Qed.

Lemma total_replace (o : JsObj.t CatVal) (k : string) (v v' : CatVal) :
  JsObj.own_get o k = Some v ->
  (total (JsObj.values (JsObj.replace o k v')) + count_of v
   = total (JsObj.values o) + count_of v')%N.
Proof.
  induction o as [|[k0 v0] o IH]; simpl; [discriminate|].
  destruct (k0 =? k); simpl.
  - intros [= ->]. lia.
  - intros H. specialize (IH H). lia.
Qed.

Lemma total_insert_index (i : N) (o : JsObj.t CatVal) (k : string) (v : CatVal) :
  total (JsObj.values (JsObj.insert_index i k v o))
  = (total (JsObj.values o) + count_of v)%N.
Proof.
  induction o as [|[k0 v0] o IH]; simpl; [lia|].
  destruct (JsObj.array_index k0) as [j|]; [destruct (j <? i)%N|]; simpl;
    rewrite ?IH; lia.
Qed.

Lemma total_add_own (o : JsObj.t CatVal) (k : string) (v : CatVal) :
  total (JsObj.values (JsObj.add_own o k v))
  = (total (JsObj.values o) + count_of v)%N.
Proof.
  unfold JsObj.add_own. destruct (JsObj.array_index k).
  - apply total_insert_index.
  - unfold JsObj.values. rewrite map_app, total_app. simpl. lia.
Qed.

Lemma counts_replace (o : JsObj.t CatVal) (k : string) (v' : CatVal) :
  forallb is_count (JsObj.values o) = true -> is_count v' = true ->
  forallb is_count (JsObj.values (JsObj.replace o k v')) = true.
Proof.
  intros Ho Hv. induction o as [|[k0 v0] o IH]; simpl in *; [reflexivity|].
  apply andb_true_iff in Ho as [H0 Ho].
  destruct (k0 =? k); simpl; rewrite ?Hv, ?H0, ?Ho, ?IH; auto.
Qed.

Lemma counts_add_own (o : JsObj.t CatVal) (k : string) (v : CatVal) :
  forallb is_count (JsObj.values o) = true -> is_count v = true ->
  forallb is_count (JsObj.values (JsObj.add_own o k v)) = true.
Proof.
  intros Ho Hv. unfold JsObj.add_own. destruct (JsObj.array_index k) as [i|].
  - induction o as [|[k0 v0] o IH]; simpl in *; [now rewrite Hv|].
    apply andb_true_iff in Ho as [H0 Ho].
    destruct (JsObj.array_index k0) as [j|]; [destruct (j <? i)%N|]; simpl;
      rewrite ?Hv, ?H0, ?Ho, ?IH; auto.
  - unfold JsObj.values. rewrite map_app, forallb_app. simpl.
    unfold JsObj.values in Ho. now rewrite Ho, Hv.
Qed.

Lemma own_value_is_count (o : JsObj.t CatVal) (k : string) (v : CatVal) :
  forallb is_count (JsObj.values o) = true ->
  JsObj.own_get o k = Some v -> is_count v = true.
Proof.
  induction o as [|[k0 v0] o IH]; simpl; [discriminate|].
  intros Ho. apply andb_true_iff in Ho as [H0 Ho].
  destruct (k0 =? k); [intros [= <-]; exact H0 | now apply IH].
Qed.

(** A row whose category is no member of [Object.prototype] adds one to
    the sum of the counts and keeps every value a count. *)
Lemma count_row_total {E : Engine}
    (col : option string) (o : JsObj.t CatVal) (row : Row) :
  forallb is_count (JsObj.values o) = true ->
  JsObj.inherited (Js.ToString (get_opt row col)) = false ->
  forallb is_count (JsObj.values (count_row col o row)) = true /\
  total (JsObj.values (count_row col o row)) = (total (JsObj.values o) + 1)%N.
Proof.
  intros Ho Hk. unfold count_row, JsObj.set, JsObj.get, JsObj.has_own.
  set (k := Js.ToString (get_opt row col)) in *.
  destruct (JsObj.own_get o k) as [v|] eqn:Hget.
  - pose proof (own_value_is_count o k v Ho Hget) as Hv.
    destruct v as [n|s]; [|discriminate]. simpl next_count.
    pose proof (total_replace o k (Count n)
                  (if (n =? 0)%N then Count 1 else Count (n + 1)) Hget) as Ht.
    split.
    + apply counts_replace; [exact Ho | now destruct (n =? 0)%N].
    + destruct (n =? 0)%N eqn:Hn; simpl in Ht; [apply N.eqb_eq in Hn|]; lia.
  - rewrite Hk. simpl next_count.
    assert (Hproto : (k =? "__proto__") = false).
    { destruct (k =? "__proto__") eqn:Hp; [|reflexivity].
      apply String.eqb_eq in Hp. rewrite Hp in Hk. discriminate Hk. }
    rewrite Hproto. split.
    + now apply counts_add_own.
    + rewrite total_add_own. reflexivity.
Qed.

Lemma fold_count_row_total {E : Engine}
    (col : option string) (data : list Row) (o : JsObj.t CatVal) :
  forallb is_count (JsObj.values o) = true ->
  (forall row, In row data ->
     JsObj.inherited (Js.ToString (get_opt row col)) = false) ->
  forallb is_count (JsObj.values (fold_left (count_row col) data o)) = true /\
  total (JsObj.values (fold_left (count_row col) data o))
  = (total (JsObj.values o) + N.of_nat (List.length data))%N.
Proof.
  revert o. induction data as [|row data IH]; intros o Ho Hrows.
  - simpl. split; [exact Ho | lia].
  - destruct (count_row_total col o row Ho (Hrows row (or_introl eq_refl)))
      as [Hc Ht].
    destruct (IH (count_row col o row) Hc
                (fun r Hr => Hrows r (or_intror Hr))) as [Hc' Ht'].
    cbn [fold_left]. split; [exact Hc'|].
    rewrite Ht', Ht. cbn [List.length]. lia.
Qed.

(** When no row's category is a member of [Object.prototype], the data of
    the pie chart are counts, one per distinct category, and they sum to the
    number of rows. *)
Lemma pie_counts_sum {E : Engine} (data : list Row) (category : option string) :
  (forall row, In row data ->
     JsObj.inherited (Js.ToString (get_opt row category)) = false) ->
  exists labels counts,
    getChartData data (pie category) = PieData labels counts /\
    forallb is_count counts = true /\
    total counts = N.of_nat (List.length data).
Proof.
  intros Hrows. simpl. eexists _, _. split; [reflexivity|].
  destruct (fold_count_row_total category data JsObj.empty eq_refl Hrows)
    as [Hc Ht].
  split; [exact Hc | exact Ht].
Qed.

Example pie_counts_status :
  @getChartData Sample.engine Sample.status_rows (pie (Some "status"))
  = PieData ["ok"; "fail"] [Count 2; Count 1].
Proof. reflexivity. Qed.

(** C4, at a rowset where the code departs from it.  The three rows have
    the single column [status], categorical, and no numeric column, and
    inference returns a pie chart on [status].  The category of the second
    row is the name of a member of [Object.prototype]: the read
    [categories["constructor"]] finds the inherited function, the sum with 1
    is a string, and that string is stored.  The chart data are the count 2
    and a string, whatever the engine prints for the function, so the counts
    sum to 2 while the rowset has 3 rows. *)
Theorem pie_counts_prototype_member {E : Engine} :
  let rows := [Sample.status "ok"; Sample.status "constructor"; Sample.status "ok"] in
  determineChartType (Some rows) = Some (pie (Some "status")) /\
  getChartData rows (pie (Some "status"))
  = PieData ["ok"; "constructor"]
            [Count 2; Text (native_toString "constructor" ++ "1")] /\
  total [Count 2; Text (native_toString "constructor" ++ "1")] = 2%N /\
  List.length rows = 3%nat.
Proof.
  split; [|repeat split].
  apply (determineChartType_category_only (Sample.status "ok") _ "status").
  - simpl. auto.
  - reflexivity.
  - simpl. intros c [<-|[]] _. reflexivity.
  - simpl. intros n [<-|[]]. reflexivity.
  - simpl. lia.
Qed.

End ChartFacts.

(** ** Table configuration *)

Module TableConfigFacts.
Import TableConfig.

Lemma strict_eq_analyzing (v : JsValue) :
  Js.strict_eq_string v analyzing = true <-> v = JStr "Analyzing table structure...".
Proof.
  destruct v; simpl; try (split; [discriminate | intros [=]]).
  rewrite String.eqb_eq. split; [now intros -> | now intros [= ->]].
Qed.

Lemma fold_classify_other (data : list TableInfo) (acc : JsObj.t bool) (k : string) :
  ~ In k (map table_name data) ->
  JsObj.own_get (fold_left classify data acc) k = JsObj.own_get acc k.
Proof.
  revert acc. induction data as [|a data IH]; intros acc Hk; [reflexivity|].
  simpl in *. rewrite IH by tauto.
  apply JsObjFacts.own_get_set_other. tauto.
Qed.

Lemma fold_classify_in (data : list TableInfo) (acc : JsObj.t bool) (t : TableInfo) :
  NoDup (map table_name data) -> In t data ->
  table_name t <> "__proto__" ->
  JsObj.own_get (fold_left classify data acc) (table_name t)
  = Some (Js.strict_eq_string (table_description t) analyzing).
Proof.
  revert acc. induction data as [|a data IH]; intros acc Hnodup Hin Hname;
    [contradiction|].
  simpl in Hnodup. apply NoDup_cons_iff in Hnodup as [Hfresh Hnodup].
  destruct Hin as [->|Hin]; simpl.
  - rewrite fold_classify_other by exact Hfresh.
    now apply JsObjFacts.own_get_set_same.
  - now apply IH.
Qed.

(** In a snapshot without repeated names, a table named otherwise than
    [__proto__] is shown as being analysed exactly when its description is
    the placeholder text. *)
Lemma loadTables_classifies (be : Backend) (st : State)
    (data : list TableInfo) (t : TableInfo) :
  get_tables be = Resolved data ->
  NoDup (map table_name data) -> In t data ->
  table_name t <> "__proto__" ->
  shown_analyzing (fst (loadTables be st)) (table_name t) = true
  <-> table_description t = JStr "Analyzing table structure...".
Proof.
  intros Hget Hnodup Hin Hname. unfold loadTables. rewrite Hget.
  unfold shown_analyzing, JsObj.get. cbn.
  change (newLoadingStates data) with (fold_left classify data JsObj.empty).
  rewrite (fold_classify_in data JsObj.empty t Hnodup Hin Hname).
  apply strict_eq_analyzing.
Qed.

Example loadTables_pending_then_ready :
  let st := Sample.config_loaded "" in
  let pending := fst (loadTables (Sample.catalog [Sample.orders_pending]) st) in
  let ready := fst (loadTables (Sample.catalog [Sample.orders]) pending) in
  shown_analyzing pending "orders" = true /\ hasLoadingTables pending = true /\
  shown_analyzing ready "orders" = false /\ hasLoadingTables ready = false.
Proof. repeat split. Qed.

(** C7, at a snapshot where the code departs from it.  The one table of
    the snapshot is named [__proto__] and its description is not the
    placeholder text.  The assignment [newLoadingStates["__proto__"] = false]
    reaches the setter of [Object.prototype], which ignores a boolean, so the
    object stays empty; the read [loadingStates["__proto__"]] in the table
    list then yields the prototype object, which is truthy, and the table is
    shown as being analysed, while the poll sees no pending table. *)
Theorem loadTables_proto_named_table :
  let st := fst (loadTables (Sample.catalog [Sample.proto_table])
                   (Sample.config_loaded "")) in
  tables st = [Sample.proto_table] /\
  Js.strict_eq_string (table_description Sample.proto_table) analyzing = false /\
  loadingStates st = [] /\
  shown_analyzing st "__proto__" = true /\
  hasLoadingTables st = false.
Proof. repeat split. Qed.

Lemma existsb_filter_negb {A} (p : A -> bool) (l : list A) :
  forallb (fun a => negb (p a)) (filter (fun a => negb (p a)) l) = true.
Proof.
  induction l as [|a l IH]; simpl; [reflexivity|].
  destruct (p a) eqn:Ha; simpl; [exact IH | now rewrite Ha].
Qed.

(** The mark set by [addTable] shows the table as being analysed. *)
Lemma markPending_shown (name : string) (st : State) :
  shown_analyzing (markPending name st) name = true.
Proof.
  unfold shown_analyzing, markPending, JsObj.get. cbn.
  now rewrite JsObjFacts.own_get_define_same.
Qed.

(** C6, amended.  [addTable] raises no validation error.  With no table
    chosen it returns at once: no HTTP call, no change of state, no message.
    With a table chosen it posts the name to the service whether or not the
    table is already configured; the only bar to a configured name is that
    the drop-down does not offer it.  When the service accepts, the table is
    marked as being analysed before the catalog is fetched, and the catalog
    is fetched once; when the service refuses, nothing but the POST has
    happened. *)
Theorem addTable_outcomes (be : Backend) (st : State) :
  forallb (fun name => negb (configured st name)) (availableUnconfiguredTables st)
  = true /\
  if JsString.is_empty (selectedTable st) then addTable be st = (st, [])
  else
    match post_tables be (selectedTable st) with
    | Resolved _ =>
        let pending := markPending (selectedTable st) (setAddingTable true st) in
        shown_analyzing pending (selectedTable st) = true /\
        addTable be st
        = (setAddingTable false (fst (loadTables be pending)),
           [POST_tables (selectedTable st); GET_tables])
    | Rejected _ =>
        addTable be st = (setAddingTable false st, [POST_tables (selectedTable st)])
    end.
Proof.
  split.
  - unfold availableUnconfiguredTables, configured.
    apply (existsb_filter_negb
             (fun name => existsb (fun c => (table_name c =? name)) (tables st))).
  - unfold addTable. destruct (JsString.is_empty (selectedTable st)); [reflexivity|].
    destruct (post_tables be (selectedTable st)) as [[]|e].
    + split; [apply markPending_shown|].
      unfold loadTables. destruct (get_tables be); reflexivity.
    + reflexivity.
Qed.

(** C6 as stated fails.  With no table chosen [addTable] leaves no error
    message; with the configured table [orders] chosen it posts the name and
    fetches the catalog. *)
Lemma addTable_no_validation_error_counterexample :
  let be := Sample.catalog [Sample.orders] in
  addTable be (Sample.config_loaded "") = (Sample.config_loaded "", []) /\
  validation_error (addTable be (Sample.config_loaded "")) = false /\
  configured (Sample.config_loaded "orders") "orders" = true /\
  snd (addTable be (Sample.config_loaded "orders"))
  = [POST_tables "orders"; GET_tables] /\
  validation_error (addTable be (Sample.config_loaded "orders")) = false.
Proof. repeat split. Qed.

End TableConfigFacts.

(* ================================================================== *)
(** * Further properties of the code *)

(** ** Keys of plain objects *)

Module JsObjKeys.
Import JsObj.

Section Facts.
Context {V : Type}.
Implicit Types (o : t V) (k : string) (v : V).

Lemma keys_replace o k v : keys (replace o k v) = keys o.
Proof.
  induction o as [|[k0 v0] o IH]; simpl; [reflexivity|].
  destruct (k0 =? k); simpl; [reflexivity | now rewrite IH].
Qed.

Lemma values_length o : List.length (values o) = List.length (keys o).
Proof. unfold values, keys. now rewrite !length_map. Qed.

Lemma in_keys_has_own o k : In k (keys o) <-> has_own o k = true.
Proof.
  unfold has_own. induction o as [|[k0 v0] o IH]; simpl.
  - split; [contradiction | discriminate].
  - destruct (k0 =? k) eqn:Hk.
    + apply String.eqb_eq in Hk. tauto.
    + apply String.eqb_neq in Hk. rewrite <- IH. tauto.
Qed.

Lemma own_get_in_values o k v : own_get o k = Some v -> In v (values o).
Proof.
  induction o as [|[k0 v0] o IH]; simpl; [discriminate|].
  destruct (k0 =? k); [intros [= ->]; now left | intros H; right; auto].
Qed.

Lemma in_keys_insert_index i o k v k' :
  In k' (keys (insert_index i k v o)) <-> k = k' \/ In k' (keys o).
Proof.
  induction o as [|[k0 v0] o IH]; simpl; [tauto|].
  destruct (array_index k0) as [j|]; [destruct (j <? i)%N|]; simpl;
    rewrite ?IH; tauto.
Qed.

Lemma in_keys_add_own o k v k' :
  In k' (keys (add_own o k v)) <-> k = k' \/ In k' (keys o).
Proof.
  unfold add_own. destruct (array_index k).
  - apply in_keys_insert_index.
  - unfold keys. rewrite map_app, in_app_iff. simpl. tauto.
Qed.

Lemma NoDup_keys_add_own o k v :
  NoDup (keys o) -> ~ In k (keys o) -> NoDup (keys (add_own o k v)).
Proof.
  intros Hnd Hk. unfold add_own. destruct (array_index k) as [i|].
  - induction o as [|[k0 v0] o IH]; simpl in *.
    + constructor; [tauto | constructor].
    + apply NoDup_cons_iff in Hnd as [Hk0 Hnd].
      assert (Hins : NoDup (k :: k0 :: keys o)).
      { constructor; [simpl; tauto|]. now constructor. }
      destruct (array_index k0) as [j|]; [destruct (j <? i)%N|]; simpl; auto.
      constructor; [|apply IH; tauto].
      rewrite in_keys_insert_index. intros [->|H]; tauto.
  - unfold keys. rewrite map_app. simpl.
    apply NoDup_app; [exact Hnd | constructor; [tauto | constructor] |].
    intros x Hx [<-|[]]. tauto.
Qed.

Lemma length_add_own o k v :
  List.length (keys (add_own o k v)) = S (List.length (keys o)).
Proof.
  unfold keys. rewrite !length_map. unfold add_own.
  destruct (array_index k) as [i|].
  - induction o as [|[k0 v0] o IH]; simpl; [reflexivity|].
    destruct (array_index k0) as [j|]; [destruct (j <? i)%N|]; simpl;
      rewrite ?IH; reflexivity.
  - rewrite length_app. simpl. lia.
Qed.

Lemma length_keys_set o k v :
  (List.length (keys (set o k v)) <= S (List.length (keys o)))%nat.
Proof.
  unfold set. destruct (has_own o k).
  - rewrite keys_replace. lia.
  - destruct (k =? "__proto__"); [lia|]. rewrite length_add_own. lia.
Qed.

Lemma not_own_not_key o k : has_own o k = false -> ~ In k (keys o).
Proof. intros H Hin. apply in_keys_has_own in Hin. congruence. Qed.

(** Assignment and definition keep the keys of an object distinct. *)
Lemma NoDup_keys_set o k v : NoDup (keys o) -> NoDup (keys (set o k v)).
Proof.
  intros Hnd. unfold set. destruct (has_own o k) eqn:Hown.
  - now rewrite keys_replace.
  - destruct (k =? "__proto__"); [exact Hnd|].
    apply NoDup_keys_add_own; [exact Hnd | now apply not_own_not_key].
Qed.

Lemma in_keys_set o k v k' :
  In k' (keys (set o k v))
  <-> In k' (keys o) \/ (k = k' /\ k <> "__proto__").
Proof.
  unfold set. destruct (has_own o k) eqn:Hown.
  - rewrite keys_replace. split; [tauto|].
    intros [H|[<- _]]; [exact H | now apply in_keys_has_own].
  - destruct (k =? "__proto__") eqn:Hp.
    + apply String.eqb_eq in Hp. tauto.
    + apply String.eqb_neq in Hp. rewrite in_keys_add_own. tauto.
Qed.

End Facts.
End JsObjKeys.

(** ** Chart inference, further *)

Module ChartMore.
Import Chart.

(** X1.  Inference declines exactly in these cases: the rowset is absent
    or empty, or the first row has no categorical column, or it has no
    numeric column and the rowset has more than 10 rows.  So a rowset whose
    columns are all numeric is never charted. *)
Theorem determineChartType_none_iff {E : Engine} (row0 : Row) (rest : list Row) :
  determineChartType None = None /\
  determineChartType (Some []) = None /\
  (determineChartType (Some (row0 :: rest)) = None
   <-> categoricalColumns row0 = [] \/
       (numericColumns row0 = [] /\ (10 < List.length (row0 :: rest))%nat)).
Proof.
  split; [reflexivity|]. split; [reflexivity|].
  unfold determineChartType, possibleDateColumns.
  destruct (categoricalColumns row0) as [|c cs] eqn:HC;
    [cbn; split; auto|].
  destruct (numericColumns row0) as [|n ns] eqn:HN.
  - change (0 <? List.length (@nil string))%nat with false.
    rewrite !andb_false_r. cbn [List.length Nat.ltb Nat.leb andb].
    destruct (List.length rest <=? 9)%nat eqn:Hlen.
    + apply Nat.leb_le in Hlen. split; [discriminate|].
      intros [H|[_ H]]; [discriminate | cbn [List.length] in H; lia].
    + apply Nat.leb_gt in Hlen. split; [|reflexivity].
      intros _. right. split; [reflexivity | cbn [List.length]; lia].
  - split.
    + destruct (0 <? List.length (filter (is_date_like row0) (c :: cs)))%nat;
        cbn; [discriminate|].
      destruct (List.length rest <=? 9)%nat; discriminate.
    + intros [H|[H _]]; discriminate.
Qed.

(** X2.  A rowset of more than 10 rows is never given a bar chart or a pie
    chart: inference returns a line chart or nothing. *)
Theorem large_rowset_line_or_none {E : Engine} (data : list Row) :
  (10 < List.length data)%nat ->
  determineChartType (Some data) = None \/
  exists x y, determineChartType (Some data) = Some (line x y).
Proof.
  intros Hlen. destruct data as [|row0 rest]; [now left|].
  apply Nat.leb_gt in Hlen.
  unfold determineChartType. rewrite Hlen, !andb_false_r.
  repeat match goal with
         | |- context [if ?b then _ else _] => destruct b
         end; eauto.
Qed.

Lemma large_rowset_line_or_none_witness :
  @determineChartType Sample.engine (Some Sample.revenue_rows) = None \/
  exists x y,
    @determineChartType Sample.engine (Some Sample.revenue_rows) = Some (line x y).
Proof.
  apply (@large_rowset_line_or_none Sample.engine Sample.revenue_rows).
  simpl. lia.
Defined.

(** X3.  Inference reads the first row and the number of rows and nothing
    else: two rowsets with the same first row and as many rows get the same
    chart, whatever their later rows hold. *)
Theorem determineChartType_first_row_and_count {E : Engine}
    (row0 : Row) (rest rest' : list Row) :
  List.length rest = List.length rest' ->
  determineChartType (Some (row0 :: rest)) = determineChartType (Some (row0 :: rest')).
Proof.
  intros Hlen. unfold determineChartType. cbn [List.length]. now rewrite Hlen.
Qed.

Lemma determineChartType_first_row_and_count_witness :
  @determineChartType Sample.engine
    (Some [Sample.revenue "Jan" 10; Sample.revenue "Feb" 20])
  = @determineChartType Sample.engine
      (Some [Sample.revenue "Jan" 10; [("month", JNum 2); ("revenue", JStr "n/a")]]).
Proof.
  apply (@determineChartType_first_row_and_count Sample.engine
           (Sample.revenue "Jan" 10) [Sample.revenue "Feb" 20]
           [[("month", JNum 2); ("revenue", JStr "n/a")]]).
  reflexivity.
Defined.

(** X4.  How a column is classed by its value in the first row: [null] and
    a string that is empty or white space only make it numeric, a boolean or
    a missing value make it categorical, and a number makes it numeric unless
    it is NaN. *)
Theorem classification_by_value {E : Engine} (row0 : Row) (col : string) :
  match Row_get row0 col with
  | JNull => is_numeric row0 col = true
  | JBool _ | JUndefined => is_categorical row0 col = true
  | JNum n => is_numeric row0 col = negb (PrimFloat.is_nan n)
  | JStr s =>
      (JsString.all JsString.is_white s = true -> is_numeric row0 col = true) /\
      is_numeric row0 col = negb (JsString.to_number_is_nan s)
  | JNative _ => True
  end.
Proof.
  unfold is_numeric, is_categorical.
  destruct (Row_get row0 col) as [| |b|n|s|m]; cbn; auto using andb_true_r.
  split; [|apply andb_true_r].
  intros Hs. unfold JsString.to_number_is_nan.
  now rewrite JsStringFacts.trim_empty_iff, Hs.
Qed.

End ChartMore.

(** ** Pie chart data *)

Module PieMore.
Import Chart.

Lemma occurrences_cons {E : Engine}
    (col : option string) (k : string) (row : Row) (data : list Row) :
  Category.occurrences col k (row :: data)
  = ((if (Category.key col row =? k)%string then 1 else 0)
     + Category.occurrences col k data)%N.
Proof.
  unfold Category.occurrences. simpl.
  destruct (Category.key col row =? k); simpl List.length; lia.
Qed.

Lemma not_inherited_not_proto (k : string) :
  JsObj.inherited k = false -> k <> "__proto__".
Proof. intros H ->. discriminate H. Qed.

Lemma fold_count_key {E : Engine}
    (col : option string) (k : string) (data : list Row)
    (o : JsObj.t CatVal) (m : N) :
  JsObj.inherited k = false ->
  JsObj.own_get o k = (if (m =? 0)%N then None else Some (Count m)) ->
  JsObj.own_get (fold_left (count_row col) data o) k
  = if (m + Category.occurrences col k data =? 0)%N then None
    else Some (Count (m + Category.occurrences col k data)).
Proof.
  intros Hk. revert o m. induction data as [|row data IH]; intros o m Ho.
  - unfold Category.occurrences. simpl. now rewrite N.add_0_r.
  - cbn [fold_left]. rewrite occurrences_cons.
    unfold count_row at 2. fold (Category.key col row).
    destruct (Category.key col row =? k) eqn:Hkey.
    + apply String.eqb_eq in Hkey. rewrite Hkey.
      rewrite N.add_assoc. apply IH.
      rewrite JsObjFacts.own_get_set_same by now apply not_inherited_not_proto.
      unfold JsObj.get. rewrite Ho, Hk.
      destruct (m =? 0)%N eqn:Hm; simpl.
      * apply N.eqb_eq in Hm. subst m. reflexivity.
      * rewrite Hm. now destruct (m + 1 =? 0)%N eqn:H1; [apply N.eqb_eq in H1; lia|].
    + rewrite N.add_0_l. apply IH.
      rewrite JsObjFacts.own_get_set_other; [exact Ho|].
      now apply String.eqb_neq.
Qed.

(** X5.  For a category whose key is no member of [Object.prototype], the
    [categories] object holds its number of occurrences among the rows, and
    holds nothing when there is none, whatever other categories occur, the
    members of [Object.prototype] included. *)
Theorem pie_count_of_category {E : Engine}
    (data : list Row) (category : option string) (k : string) :
  JsObj.inherited k = false ->
  JsObj.own_get (count_categories category data) k
  = if (Category.occurrences category k data =? 0)%N then None
    else Some (Count (Category.occurrences category k data)).
Proof.
  intros Hk.
  apply (fold_count_key category k data JsObj.empty 0 Hk). reflexivity.
Qed.

Lemma pie_count_of_category_witness :
  JsObj.own_get
    (@count_categories Sample.engine (Some "status")
       [Sample.status "ok"; Sample.status "constructor"; Sample.status "ok"]) "ok"
  = Some (Count 2).
Proof.
  apply (@pie_count_of_category Sample.engine
           [Sample.status "ok"; Sample.status "constructor"; Sample.status "ok"]
           (Some "status") "ok").
  reflexivity.
Defined.

Lemma fold_count_keys {E : Engine}
    (col : option string) (data : list Row) (o : JsObj.t CatVal) :
  NoDup (JsObj.keys o) ->
  NoDup (JsObj.keys (fold_left (count_row col) data o)) /\
  (List.length (JsObj.keys (fold_left (count_row col) data o))
   <= List.length (JsObj.keys o) + List.length data)%nat /\
  forall k,
    In k (JsObj.keys (fold_left (count_row col) data o))
    <-> In k (JsObj.keys o) \/
        (k <> "__proto__" /\ exists row, In row data /\ Category.key col row = k).
Proof.
  revert o. induction data as [|row data IH]; intros o Hnd.
  - simpl. split; [exact Hnd|]. split; [lia|].
    intros k. split; [tauto|]. intros [H|[_ [row [[] _]]]]. exact H.
  - cbn [fold_left].
    destruct (IH (count_row col o row)) as (Hnd' & Hlen & Hin).
    { now apply JsObjKeys.NoDup_keys_set. }
    split; [exact Hnd'|]. split.
    + eapply Nat.le_trans; [exact Hlen|]. cbn [List.length].
      assert (List.length (JsObj.keys (count_row col o row))
              <= S (List.length (JsObj.keys o)))%nat; [|lia].
      apply JsObjKeys.length_keys_set.
    + intros k. rewrite Hin. unfold count_row at 1.
      rewrite JsObjKeys.in_keys_set. fold (Category.key col row).
      split.
      * intros [[H|[Hk Hp]]|[Hp [r [Hr Hkr]]]]; [tauto| |].
        -- right. split; [congruence|]. exists row. split; [now left | exact Hk].
        -- right. split; [exact Hp|]. exists r. split; [now right | exact Hkr].
      * intros [H|[Hp [r [[<-|Hr] Hkr]]]]; [tauto| |].
        -- left. right. split; [exact Hkr | congruence].
        -- right. split; [exact Hp|]. now exists r.
Qed.

(** X6.  The labels of a pie chart are distinct, there is one value per
    label, and there are at most as many labels as rows. *)
Theorem pie_labels_distinct {E : Engine} (data : list Row) (category : option string) :
  exists labels values,
    getChartData data (pie category) = PieData labels values /\
    NoDup labels /\
    List.length values = List.length labels /\
    (List.length labels <= List.length data)%nat.
Proof.
  eexists _, _. split; [reflexivity|].
  destruct (fold_count_keys category data JsObj.empty (NoDup_nil _))
    as (Hnd & Hlen & _).
  split; [exact Hnd|]. split; [apply JsObjKeys.values_length | exact Hlen].
Qed.

(** X7.  The labels of a pie chart are the category keys of the rows, save
    the key [__proto__], which never becomes a label. *)
Theorem pie_labels_are_row_keys {E : Engine}
    (data : list Row) (category : option string) (k : string) :
  In k (JsObj.keys (count_categories category data))
  <-> k <> "__proto__" /\
      exists row, In row data /\ Category.key category row = k.
Proof.
  destruct (fold_count_keys category data JsObj.empty (NoDup_nil _))
    as (_ & _ & Hin).
  unfold count_categories. rewrite Hin. simpl. tauto.
Qed.

End PieMore.

(** ** The order of pie chart labels *)

Module PieOrder.
Import Chart KeyOrder.

Lemma existsb_eqb_in (k : string) (l : list string) :
  existsb (String.eqb k) l = true <-> In k l.
Proof.
  rewrite existsb_exists. split.
  - intros [x [Hx Heq]]. apply String.eqb_eq in Heq. now subst.
  - intros H. exists k. split; [exact H | apply String.eqb_refl].
Qed.

Lemma add_new_present (acc : list string) (k : string) :
  In k acc -> add_new acc k = acc.
Proof. intros H. unfold add_new. now rewrite (proj2 (existsb_eqb_in k acc) H). Qed.

Lemma add_new_absent (acc : list string) (k : string) :
  ~ In k acc -> add_new acc k = acc ++ [k].
Proof.
  intros H. unfold add_new.
  destruct (existsb (String.eqb k) acc) eqn:He; [|reflexivity].
  apply existsb_eqb_in in He. contradiction.
Qed.

Lemma index_not_plain (l : list string) (k : string) :
  forallb is_index l = true -> is_index k = false -> ~ In k l.
Proof.
  intros Hl Hk Hin. rewrite forallb_forall in Hl. specialize (Hl k Hin). congruence.
Qed.

Section Insert.
Context {V : Type}.

(** A new array-index key goes among the array-index keys, before the
    first one that is not smaller. *)
Lemma keys_insert_index (i : N) (k : string) (v : V)
    (idx oth : list string) (o : JsObj.t V) :
  JsObj.array_index k = Some i ->
  JsObj.keys o = idx ++ oth ->
  forallb is_index idx = true ->
  forallb (fun x => negb (is_index x)) oth = true ->
  ascending (map index_value idx) ->
  exists idx',
    JsObj.keys (JsObj.insert_index i k v o) = idx' ++ oth /\
    forallb is_index idx' = true /\
    ascending (map index_value idx') /\
    (forall x, In x idx' <-> x = k \/ In x idx).
Proof.
  intros Hk. assert (Hik : is_index k = true) by (unfold is_index; now rewrite Hk).
  assert (Hvk : index_value k = i) by (unfold index_value; now rewrite Hk).
  revert o. induction idx as [|a idx IH]; intros o Ho Hidx Hoth Hasc.
  - exists [k]. simpl in Ho.
    assert (Hins : JsObj.keys (JsObj.insert_index i k v o) = k :: oth).
    { destruct o as [|[k0 v0] o]; simpl in *; [now rewrite <- Ho|].
      destruct oth as [|b oth]; [discriminate|]. injection Ho as -> Ho.
      simpl in Hoth. apply andb_true_iff in Hoth as [Hb _].
      unfold is_index in Hb. destruct (JsObj.array_index b); [discriminate|].
      simpl. now rewrite Ho. }
    rewrite Hins. simpl. rewrite Hik.
    split; [reflexivity|]. split; [reflexivity|].
    split; [split; [constructor | exact I]|].
    intros x. intuition congruence.
  - destruct o as [|[k0 v0] o]; [discriminate|].
    simpl in Ho. injection Ho as -> Ho.
    simpl in Hidx. apply andb_true_iff in Hidx as [Ha Hidx].
    simpl in Hasc. destruct Hasc as [Hle Hasc].
    simpl. unfold is_index in Ha.
    destruct (JsObj.array_index a) as [j|] eqn:Hj; [|discriminate].
    assert (Hva : index_value a = j) by (unfold index_value; now rewrite Hj).
    destruct (j <? i)%N eqn:Hji.
    + destruct (IH o Ho Hidx Hoth Hasc) as (idx' & Hkeys & Hall & Hsorted & Hmem).
      exists (a :: idx'). simpl. rewrite Hkeys.
      split; [reflexivity|]. split.
      { unfold is_index at 1. now rewrite Hj. }
      split.
      { split; [|exact Hsorted].
        apply Forall_forall. intros x Hx. apply in_map_iff in Hx as [y [<- Hy]].
        apply Hmem in Hy as [->|Hy].
        - rewrite Hva, Hvk. apply N.ltb_lt in Hji. lia.
        - rewrite Forall_forall in Hle. apply Hle. now apply in_map. }
      intros x. simpl. rewrite Hmem. intuition congruence.
    + exists (k :: a :: idx). simpl. rewrite Ho.
      split; [reflexivity|]. split.
      { rewrite Hik, Hidx. unfold is_index. now rewrite Hj. }
      split.
      { split; [|split; assumption].
        apply N.ltb_ge in Hji. rewrite Hvk, Hva.
        constructor; [exact Hji|].
        eapply Forall_impl; [|exact Hle]. intros x Hx. rewrite Hva in Hx. lia. }
      intros x. simpl. intuition congruence.
Qed.

(** How an assignment changes the keys of an object whose array-index keys
    come first, in ascending order. *)
Lemma keys_set_order (o : JsObj.t V) (k : string) (v : V) (idx oth : list string) :
  JsObj.keys o = idx ++ oth ->
  forallb is_index idx = true ->
  forallb (fun x => negb (is_index x)) oth = true ->
  ascending (map index_value idx) ->
  exists idx',
    JsObj.keys (JsObj.set o k v)
    = idx' ++ (if plain k then add_new oth k else oth) /\
    forallb is_index idx' = true /\
    forallb (fun x => negb (is_index x)) (if plain k then add_new oth k else oth)
    = true /\
    ascending (map index_value idx').
Proof.
  intros Ho Hidx Hoth Hasc. unfold JsObj.set, plain.
  destruct (JsObj.has_own o k) eqn:Hown.
  - rewrite JsObjKeys.keys_replace. exists idx.
    apply JsObjKeys.in_keys_has_own in Hown. rewrite Ho, in_app_iff in Hown.
    destruct (is_index k) eqn:Hik; simpl; [auto|].
    destruct (k =? "__proto__"); simpl; [auto|].
    destruct Hown as [Hin|Hin]; [now apply index_not_plain in Hin|].
    rewrite (add_new_present _ _ Hin). auto.
  - pose proof (JsObjKeys.not_own_not_key o k Hown) as Hfresh.
    rewrite Ho, in_app_iff in Hfresh.
    destruct (k =? "__proto__") eqn:Hp.
    + exists idx. rewrite andb_false_r. auto.
    + rewrite andb_true_r. unfold JsObj.add_own.
      destruct (JsObj.array_index k) as [i|] eqn:Hk.
      * assert (Hik : is_index k = true) by (unfold is_index; now rewrite Hk).
        rewrite Hik. cbn [negb].
        destruct (keys_insert_index i k v idx oth o Hk Ho Hidx Hoth Hasc)
          as (idx' & Hkeys & Hall & Hsorted & _).
        exists idx'. auto.
      * assert (Hik : is_index k = false) by (unfold is_index; now rewrite Hk).
        rewrite Hik. cbn [negb].
        exists idx. rewrite add_new_absent by tauto.
        split.
        { unfold JsObj.keys in *. rewrite map_app, Ho, <- app_assoc. reflexivity. }
        split; [exact Hidx|]. split; [|exact Hasc].
        rewrite forallb_app, Hoth. cbn. now rewrite Hik.
Qed.

End Insert.

Lemma fold_count_order {E : Engine}
    (col : option string) (data : list Row) (o : JsObj.t CatVal)
    (idx oth : list string) :
  JsObj.keys o = idx ++ oth ->
  forallb is_index idx = true ->
  forallb (fun x => negb (is_index x)) oth = true ->
  ascending (map index_value idx) ->
  exists idx',
    JsObj.keys (fold_left (count_row col) data o)
    = idx' ++ fold_left add_new (filter plain (map (Category.key col) data)) oth /\
    forallb is_index idx' = true /\
    ascending (map index_value idx').
Proof.
  revert o idx oth. induction data as [|row data IH]; intros o idx oth Ho Hidx Hoth Hasc.
  - exists idx. simpl. auto.
  - cbn [fold_left map filter].
    destruct (keys_set_order o (Category.key col row)
                (next_count (Category.key col row)
                   (JsObj.get o (Category.key col row)))
                idx oth Ho Hidx Hoth Hasc)
      as (idx1 & Hkeys & Hall & Hoth1 & Hsorted).
    destruct (IH _ idx1 _ Hkeys Hall Hoth1 Hsorted) as (idx' & Hk' & Hall' & Hs').
    exists idx'. split; [|auto].
    unfold count_row at 2. fold (Category.key col row). rewrite Hk'.
    now destruct (plain (Category.key col row)).
Qed.

(** X26.  The order of the labels of a pie chart: first the categories
    that are array indices (canonical numerals below 2^32 - 1), in ascending
    numeric order, then the other categories in the order of their first
    occurrence among the rows. *)
Theorem pie_labels_order {E : Engine} (data : list Row) (category : option string) :
  exists indices,
    JsObj.keys (count_categories category data)
    = indices
      ++ first_occurrences (filter plain (map (Category.key category) data)) /\
    forallb is_index indices = true /\
    ascending (map index_value indices).
Proof.
  apply (fold_count_order category data JsObj.empty [] []); simpl; auto.
Qed.

Example pie_labels_order_sample :
  JsObj.keys
    (@count_categories Sample.engine (Some "status")
       (map Sample.status ["beta"; "10"; "alpha"; "9"; "beta"; "010"]))
  = ["9"; "10"; "beta"; "alpha"; "010"].
Proof. reflexivity. Qed.

End PieOrder.

(** ** Selection and submission in the chat view, further *)

Module ChatMore.
Import Chat.

Lemma map_toggle_pg (n : string) (l : list Pg.t) :
  map (fun table =>
         if (Pg.name table =? n)
         then {| Pg.name := Pg.name table; Pg.selected := negb (Pg.selected table) |}
         else table)
      (map (fun table =>
              if (Pg.name table =? n)
              then {| Pg.name := Pg.name table; Pg.selected := negb (Pg.selected table) |}
              else table) l) = l.
Proof.
  induction l as [|[name sel] l IH]; simpl; [reflexivity|].
  rewrite IH. destruct (name =? n) eqn:Hn; simpl; rewrite Hn; simpl;
    [now rewrite negb_involutive | reflexivity].
Qed.

Lemma map_toggle_excel (n : string) (l : list Excel.t) :
  map (fun table =>
         if (Excel.name table =? n)
         then {| Excel.name := Excel.name table;
                 Excel.original_filename := Excel.original_filename table;
                 Excel.expires_at := Excel.expires_at table;
                 Excel.selected := negb (Excel.selected table) |}
         else table)
      (map (fun table =>
              if (Excel.name table =? n)
              then {| Excel.name := Excel.name table;
                      Excel.original_filename := Excel.original_filename table;
                      Excel.expires_at := Excel.expires_at table;
                      Excel.selected := negb (Excel.selected table) |}
              else table) l) = l.
Proof.
  induction l as [|[name file exp sel] l IH]; simpl; [reflexivity|].
  rewrite IH. destruct (name =? n) eqn:Hn; simpl; rewrite Hn; simpl;
    [now rewrite negb_involutive | reflexivity].
Qed.

(** X8.  Clicking a table twice restores the state: [toggleTableSelection]
    is its own inverse, for either kind and whatever the lists hold. *)
Theorem toggleTableSelection_involutive
    (tableName : string) (isExcel : bool) (st : State) :
  toggleTableSelection tableName isExcel
    (toggleTableSelection tableName isExcel st) = st.
Proof.
  destruct st as [msgs inp load pg ex].
  unfold toggleTableSelection, setExcelTables, setAvailableTables.
  destruct isExcel; cbn; f_equal;
    [apply map_toggle_excel | apply map_toggle_pg].
Qed.

Lemma pg_toggle_other (n m : string) (l : list Pg.t) :
  m <> n ->
  existsb (fun table => (Pg.name table =? m) && Pg.selected table)
    (map (fun table =>
            if (Pg.name table =? n)
            then {| Pg.name := Pg.name table; Pg.selected := negb (Pg.selected table) |}
            else table) l)
  = existsb (fun table => (Pg.name table =? m) && Pg.selected table) l.
Proof.
  intros Hmn. induction l as [|[name sel] l IH]; simpl; [reflexivity|].
  rewrite IH. f_equal.
  destruct (name =? n) eqn:Hn; simpl; [|reflexivity].
  apply String.eqb_eq in Hn. subst name.
  now rewrite (proj2 (String.eqb_neq n m)) by congruence.
Qed.

Lemma pg_absent (n : string) (l : list Pg.t) :
  ~ In n (map Pg.name l) ->
  existsb (fun table => (Pg.name table =? n) && Pg.selected table) l = false.
Proof.
  induction l as [|t l IH]; simpl; intros Hn; [reflexivity|].
  rewrite IH by tauto.
  rewrite (proj2 (String.eqb_neq (Pg.name t) n)) by tauto. reflexivity.
Qed.

Lemma pg_toggle_names (n : string) (l : list Pg.t) :
  map Pg.name
    (map (fun table =>
            if (Pg.name table =? n)
            then {| Pg.name := Pg.name table; Pg.selected := negb (Pg.selected table) |}
            else table) l)
  = map Pg.name l.
Proof.
  rewrite map_map. apply map_ext. intros t. now destruct (Pg.name t =? n).
Qed.

Lemma pg_toggle_same (n : string) (l : list Pg.t) :
  NoDup (map Pg.name l) -> In n (map Pg.name l) ->
  existsb (fun table => (Pg.name table =? n) && Pg.selected table)
    (map (fun table =>
            if (Pg.name table =? n)
            then {| Pg.name := Pg.name table; Pg.selected := negb (Pg.selected table) |}
            else table) l)
  = negb (existsb (fun table => (Pg.name table =? n) && Pg.selected table) l).
Proof.
  induction l as [|[name sel] l IH]; simpl; intros Hnd Hin; [contradiction|].
  apply NoDup_cons_iff in Hnd as [Hfresh Hnd].
  destruct (name =? n) eqn:Hn; simpl.
  - apply String.eqb_eq in Hn. subst name. rewrite String.eqb_refl. simpl.
    rewrite (pg_absent n l Hfresh).
    rewrite pg_absent by (now rewrite pg_toggle_names).
    now rewrite !orb_false_r.
  - rewrite Hn. simpl. apply IH; [exact Hnd|].
    destruct Hin as [Heq|Hin]; [|exact Hin].
    apply String.eqb_neq in Hn. congruence.
Qed.

(** X9.  In a list of persistent tables with distinct names, clicking the
    table [n] flips whether [n] is selected, leaves the selection of every
    other name as it was, and leaves the uploads alone. *)
Theorem toggleTableSelection_pg (n m : string) (st : State) :
  NoDup (map Pg.name (availableTables st)) ->
  In n (map Pg.name (availableTables st)) ->
  pg_selected (toggleTableSelection n false st) n = negb (pg_selected st n) /\
  (m <> n -> pg_selected (toggleTableSelection n false st) m = pg_selected st m) /\
  excelTables (toggleTableSelection n false st) = excelTables st /\
  map Pg.name (availableTables (toggleTableSelection n false st))
  = map Pg.name (availableTables st).
Proof.
  intros Hnd Hin. unfold pg_selected, toggleTableSelection. cbn.
  split; [now apply pg_toggle_same|].
  split; [intros Hm; now apply pg_toggle_other|].
  split; [reflexivity | apply pg_toggle_names].
Qed.

Lemma toggleTableSelection_pg_witness :
  pg_selected (toggleTableSelection "orders" false Sample.chat_loaded) "orders"
  = negb (pg_selected Sample.chat_loaded "orders") /\
  ("customers" <> "orders" ->
   pg_selected (toggleTableSelection "orders" false Sample.chat_loaded) "customers"
   = pg_selected Sample.chat_loaded "customers") /\
  excelTables (toggleTableSelection "orders" false Sample.chat_loaded)
  = excelTables Sample.chat_loaded /\
  map Pg.name (availableTables (toggleTableSelection "orders" false Sample.chat_loaded))
  = map Pg.name (availableTables Sample.chat_loaded).
Proof.
  apply (toggleTableSelection_pg "orders" "customers" Sample.chat_loaded).
  - simpl. constructor; [tauto | constructor].
  - simpl. auto.
Defined.

(** X10.  Fetching a list twice is as fetching it once, and a successful
    fetch wipes out a click made before it: the state after click and fetch
    is the state after the fetch alone.  When the fetch fails the click
    stands. *)
Theorem loadExcelTables_idempotent_absorbing
    (be : Backend) (n : string) (st : State) :
  fst (loadExcelTables be (fst (loadExcelTables be st))) = fst (loadExcelTables be st) /\
  fst (loadExcelTables be (toggleTableSelection n true st))
  = match get_excel_tables be with
    | Resolved _ => fst (loadExcelTables be st)
    | Rejected _ => toggleTableSelection n true st
    end.
Proof.
  unfold loadExcelTables. destruct (get_excel_tables be); split; reflexivity.
Qed.

(** X11.  The two loaders started on mount act on different lists, so the
    order in which their responses arrive does not matter. *)
Theorem mount_loaders_commute (be : Backend) (st : State) :
  fst (loadTables be (fst (loadExcelTables be st)))
  = fst (loadExcelTables be (fst (loadTables be st))).
Proof.
  unfold loadTables, loadExcelTables.
  destruct (get_tables be), (get_excel_tables be); reflexivity.
Qed.

(** X12.  When the question goes out and the service answers, the handler
    has made the one call, carrying the input as typed and the selected
    names, persistent ones first; the log has grown by the user's message and
    the answer with its query text and rows, the query hidden; the input is
    cleared and the busy flag is down; both lists are as before. *)
Theorem handleSubmit_answer (be : Backend) (st : State) (r : ChatResponse) :
  JsString.all JsString.is_white (input st) = false ->
  allSelectedTables st <> [] ->
  post_chat be (input st) (allSelectedTables st) = Resolved r ->
  handleSubmit be st
  = ({| messages := messages st ++
                    [user (input st); bot (answer r) (sql_query r) (data r) false];
        input := "";
        isLoading := false;
        availableTables := availableTables st;
        excelTables := excelTables st |},
     [POST_chat (input st)
        (map Pg.name (filter Pg.selected (availableTables st))
         ++ map Excel.name (filter Excel.selected (excelTables st)))]).
Proof.
  intros Hinput Hsel Hok. unfold handleSubmit.
  rewrite JsStringFacts.trim_empty_iff, Hinput.
  destruct (allSelectedTables st) as [|t ts] eqn:Hall; [congruence|].
  cbn [List.length Nat.eqb]. rewrite Hok.
  unfold setIsLoading, setMessages, setInput. cbn.
  rewrite <- app_assoc. unfold allSelectedTables in Hall. now rewrite Hall.
Qed.

Lemma handleSubmit_answer_witness :
  let st := setInput "total sales?"
              (toggleTableSelection "orders" false Sample.chat_loaded) in
  handleSubmit (Fixture.answering Fixture.total_sales) st
  = ({| messages := [user "total sales?";
                     bot (JStr "Total sales are 215.")
                         (JStr "SELECT SUM(amount) FROM orders")
                         (Some [[("sum", JNum 215)]]) false];
        input := "";
        isLoading := false;
        availableTables := availableTables st;
        excelTables := excelTables st |},
     [POST_chat "total sales?" ["orders"]]).
Proof.
  apply (handleSubmit_answer (Fixture.answering Fixture.total_sales)
           (setInput "total sales?"
              (toggleTableSelection "orders" false Sample.chat_loaded))
           Fixture.total_sales).
  - reflexivity.
  - simpl. discriminate.
  - reflexivity.
Defined.

(** X13.  In every case [handleSubmit] only appends to the log, at most
    two messages, makes at most one call, and leaves both lists of tables as
    they were; the input is cleared and the busy flag lowered exactly when a
    call was made, and are untouched otherwise. *)
Theorem handleSubmit_frame (be : Backend) (st : State) :
  let st' := fst (handleSubmit be st) in
  let calls := snd (handleSubmit be st) in
  (exists appended,
     messages st' = messages st ++ appended /\ (List.length appended <= 2)%nat) /\
  (List.length calls <= 1)%nat /\
  availableTables st' = availableTables st /\
  excelTables st' = excelTables st /\
  input st' = (if (List.length calls =? 0)%nat then input st else "") /\
  isLoading st' = (if (List.length calls =? 0)%nat then isLoading st else false).
Proof.
  unfold handleSubmit.
  destruct (JsString.is_empty (JsString.trim (input st))).
  { cbn. split; [exists []; rewrite app_nil_r; auto|]. auto. }
  destruct (List.length (allSelectedTables st) =? 0)%nat.
  { cbn. split; [eexists; split; [reflexivity | simpl; lia]|]. auto. }
  destruct (post_chat be (input st) (allSelectedTables st)); cbn;
    (split; [eexists; split; [rewrite <- app_assoc; reflexivity | simpl; lia]|]);
    auto.
Qed.

(** X14.  A call made by [handleSubmit] never carries a blank question or
    an empty list of tables: it carries the input of the state, which holds a
    character other than white space, and the names selected in it, of which
    there is at least one. *)
Theorem handleSubmit_call_well_formed
    (be : Backend) (st : State) (message : string) (tables : list string) :
  In (POST_chat message tables) (snd (handleSubmit be st)) ->
  message = input st /\
  JsString.all JsString.is_white message = false /\
  tables = allSelectedTables st /\
  tables <> [].
Proof.
  unfold handleSubmit. rewrite JsStringFacts.trim_empty_iff.
  destruct (JsString.all JsString.is_white (input st)) eqn:Hinput;
    [intros []|].
  destruct (allSelectedTables st) as [|t ts] eqn:Hall; [intros []|].
  cbn [List.length Nat.eqb].
  destruct (post_chat be (input st) (t :: ts)); cbn;
    intros [[= <- <-]|[]]; repeat split; auto; discriminate.
Qed.

Lemma handleSubmit_call_well_formed_witness :
  let st := setInput "total sales?"
              (toggleTableSelection "orders" false Sample.chat_loaded) in
  "total sales?" = input st /\
  JsString.all JsString.is_white "total sales?" = false /\
  ["orders"] = allSelectedTables st /\
  ["orders"] <> [].
Proof.
  apply (handleSubmit_call_well_formed Sample.offline
           (setInput "total sales?"
              (toggleTableSelection "orders" false Sample.chat_loaded))
           "total sales?" ["orders"]).
  simpl. auto.
Defined.

(** X27.  The names a request carries are the names shown as selected: a
    name is among [allSelectedTables] exactly when a selected entry of one of
    the two lists has it. *)
Theorem allSelectedTables_selected (st : State) (n : string) :
  In n (allSelectedTables st)
  <-> pg_selected st n = true \/ excel_selected st n = true.
Proof.
  unfold allSelectedTables, pg_selected, excel_selected.
  rewrite in_app_iff, !in_map_iff, !existsb_exists.
  split; intros [[t H]|[t H]]; [left|right|left|right]; exists t.
  - destruct H as [<- H]. apply filter_In in H as [Hin Hsel].
    rewrite Hsel, String.eqb_refl. auto.
  - destruct H as [<- H]. apply filter_In in H as [Hin Hsel].
    rewrite Hsel, String.eqb_refl. auto.
  - destruct H as [Hin H]. apply andb_true_iff in H as [Hn Hsel].
    apply String.eqb_eq in Hn. split; [exact Hn | now apply filter_In].
  - destruct H as [Hin H]. apply andb_true_iff in H as [Hn Hsel].
    apply String.eqb_eq in Hn. split; [exact Hn | now apply filter_In].
Qed.

End ChatMore.

(** ** Expanding result rows *)

Module ResultsFacts.
Import Results.

Lemma has_app (s s' : IndexSet) (j : nat) : has (s ++ s') j = has s j || has s' j.
Proof. unfold has. apply existsb_app. Qed.

Lemma has_add (s : IndexSet) (i j : nat) :
  has (add s i) j = has s j || (j =? i)%nat.
Proof.
  unfold add. destruct (has s i) eqn:Hi.
  - destruct (j =? i)%nat eqn:Hj; [|now rewrite orb_false_r].
    apply Nat.eqb_eq in Hj. subst j. now rewrite Hi.
  - rewrite has_app. simpl. now rewrite orb_false_r.
Qed.

Lemma has_fold_add (l acc : IndexSet) (j : nat) :
  has (fold_left add l acc) j = has acc j || has l j.
Proof.
  revert acc. induction l as [|i l IH]; intros acc; simpl.
  - now rewrite orb_false_r.
  - rewrite IH, has_add. rewrite <- orb_assoc. reflexivity.
Qed.

Lemma has_copy (s : IndexSet) (j : nat) : has (copy s) j = has s j.
Proof. unfold copy. now rewrite has_fold_add. Qed.

Lemma has_delete (s : IndexSet) (i j : nat) :
  has (delete s i) j = has s j && negb (j =? i)%nat.
Proof.
  unfold has, delete. induction s as [|a s IH]; simpl; [reflexivity|].
  destruct (a =? i)%nat eqn:Ha; simpl; rewrite IH.
  - apply Nat.eqb_eq in Ha. subst a.
    destruct (j =? i)%nat; simpl; [now rewrite andb_false_r | reflexivity].
  - destruct (j =? a)%nat eqn:Hj; simpl; [|reflexivity].
    apply Nat.eqb_eq in Hj. subst j. now rewrite Ha.
Qed.

Lemma has_In (s : IndexSet) (i : nat) : has s i = true <-> In i s.
Proof.
  unfold has. rewrite existsb_exists. split.
  - intros [x [Hx Heq]]. apply Nat.eqb_eq in Heq. now subst.
  - intros H. exists i. split; [exact H | apply Nat.eqb_refl].
Qed.

Lemma NoDup_add (s : IndexSet) (i : nat) : NoDup s -> NoDup (add s i).
Proof.
  intros Hs. unfold add. destruct (has s i) eqn:Hi; [exact Hs|].
  apply NoDup_app; [exact Hs | constructor; [tauto | constructor] |].
  intros x Hx [<-|[]]. apply has_In in Hx. congruence.
Qed.

Lemma NoDup_copy (s : IndexSet) : NoDup (copy s).
Proof.
  unfold copy. assert (H : NoDup (@nil nat)) by constructor.
  revert H. generalize (@nil nat). induction s as [|i s IH]; intros acc Hacc;
    simpl; [exact Hacc|].
  apply IH. now apply NoDup_add.
Qed.

Lemma has_toggleExpand (index j : nat) (prev : IndexSet) :
  has (toggleExpand index prev) j
  = (if (j =? index)%nat then negb (has prev index) else has prev j).
Proof.
  unfold toggleExpand. rewrite has_copy.
  destruct (has prev index) eqn:Hi.
  - rewrite has_delete, has_copy.
    destruct (j =? index)%nat; [apply andb_false_r | apply andb_true_r].
  - rewrite has_add, has_copy.
    destruct (j =? index)%nat eqn:Hj; [apply orb_true_r | apply orb_false_r].
Qed.

(** X15.  [toggleExpand] flips whether the clicked message is expanded and
    changes no other message; its result never holds an index twice. *)
Theorem toggleExpand_membership (index j : nat) (prev : IndexSet) :
  has (toggleExpand index prev) j
  = (if (j =? index)%nat then negb (has prev index) else has prev j) /\
  NoDup (toggleExpand index prev).
Proof.
  split; [apply has_toggleExpand|].
  unfold toggleExpand. rewrite has_copy.
  destruct (has prev index).
  - apply NoDup_filter, NoDup_copy.
  - apply NoDup_add, NoDup_copy.
Qed.

(** X16.  The rows shown for a message are all of its rows when it is
    expanded and its first 5 rows otherwise.  Rows are held back only when
    there are more than 5, which is when the button that expands the message
    is rendered; and one click on that button shows them all. *)
Theorem shownRows_complete (data : list Row) (expanded : IndexSet) (index : nat) :
  (hasExpandButton data = false -> shownRows data expanded index = data) /\
  (has expanded index = false ->
   shownRows data expanded index = firstn 5 data /\
   shownRows data (toggleExpand index expanded) index = data) /\
  List.length (shownRows data expanded index)
  = (if has expanded index then List.length data
     else Nat.min 5 (List.length data)).
Proof.
  unfold shownRows, hasExpandButton. repeat split.
  - intros Hlen. apply Nat.ltb_ge in Hlen.
    destruct (has expanded index); [reflexivity | now apply firstn_all2].
  - now rewrite H.
  - now rewrite has_toggleExpand, Nat.eqb_refl, H.
  - destruct (has expanded index); [reflexivity | apply length_firstn].
Qed.

End ResultsFacts.

(** ** Values of plain objects *)

Module JsObjValues.
Import JsObj.

Section Facts.
Context {V : Type}.
Implicit Types (o : t V) (k : string) (v : V).

Lemma forallb_values_replace (p : V -> bool) o k v :
  forallb p (values o) = true -> p v = true ->
  forallb p (values (replace o k v)) = true.
Proof.
  intros Ho Hv. induction o as [|[k0 v0] o IH]; simpl in *; [reflexivity|].
  apply andb_true_iff in Ho as [H0 Ho].
  destruct (k0 =? k); simpl; rewrite ?Hv, ?H0, ?Ho, ?IH; auto.
Qed.

Lemma forallb_values_add_own (p : V -> bool) o k v :
  forallb p (values o) = true -> p v = true ->
  forallb p (values (add_own o k v)) = true.
Proof.
  intros Ho Hv. unfold add_own. destruct (array_index k) as [i|].
  - induction o as [|[k0 v0] o IH]; simpl in *; [now rewrite Hv|].
    apply andb_true_iff in Ho as [H0 Ho].
    destruct (array_index k0) as [j|]; [destruct (j <? i)%N|]; simpl;
      rewrite ?Hv, ?H0, ?Ho, ?IH; auto.
  - unfold values in *. rewrite map_app, forallb_app. simpl.
    now rewrite Ho, Hv.
Qed.

(** A value stored by an assignment joins values that all satisfy [p]. *)
Lemma forallb_values_set (p : V -> bool) o k v :
  forallb p (values o) = true -> p v = true ->
  forallb p (values (set o k v)) = true.
Proof.
  intros Ho Hv. unfold set. destruct (has_own o k).
  - now apply forallb_values_replace.
  - destruct (k =? "__proto__"); [exact Ho|].
    now apply forallb_values_add_own.
Qed.

End Facts.
End JsObjValues.

(** ** The configuration view, further *)

Module ConfigFacts.
Import TableConfig.
Import ConfigView.

Lemma fold_classify_none_pending (data : list TableInfo) (acc : JsObj.t bool) :
  forallb negb (JsObj.values acc) = true ->
  existsb pending data = false ->
  forallb negb (JsObj.values (fold_left classify data acc)) = true.
Proof.
  revert acc. induction data as [|t data IH]; intros acc Hacc Hdata; [exact Hacc|].
  simpl in *. apply orb_false_iff in Hdata as [Ht Hdata].
  apply IH; [|exact Hdata].
  unfold classify. apply JsObjValues.forallb_values_set; [exact Hacc|].
  fold (pending t). now rewrite Ht.
Qed.

Lemma existsb_forallb_negb (l : list bool) :
  forallb negb l = true -> existsb (fun state => state) l = false.
Proof.
  induction l as [|b l IH]; simpl; [reflexivity|].
  intros H. apply andb_true_iff in H as [Hb Hl].
  destruct b; [discriminate | now apply IH].
Qed.

Lemma existsb_in_true (l : list bool) :
  In true l -> existsb (fun state => state) l = true.
Proof. intros H. apply existsb_exists. now exists true. Qed.

(** X17.  After a fetch of a snapshot in which names are distinct and none
    is [__proto__], the 2-second poll is kept running exactly when some table
    of the snapshot carries the placeholder description. *)
Theorem loadTables_keeps_polling (be : Backend) (st : TableConfig.State)
    (data : list TableInfo) :
  get_tables be = Resolved data ->
  NoDup (map table_name data) ->
  ~ In "__proto__" (map table_name data) ->
  hasLoadingTables (fst (TableConfig.loadTables be st)) = existsb pending data.
Proof.
  intros Hget Hnd Hproto. unfold TableConfig.loadTables. rewrite Hget.
  unfold hasLoadingTables. cbn. unfold newLoadingStates.
  destruct (existsb pending data) eqn:Hp.
  - apply existsb_exists in Hp as [t [Hin Ht]].
    apply existsb_in_true.
    apply (JsObjKeys.own_get_in_values _ (table_name t)).
    rewrite (TableConfigFacts.fold_classify_in data JsObj.empty t Hnd Hin).
    + now f_equal.
    + intros Heq. apply Hproto. rewrite <- Heq. now apply in_map.
  - apply existsb_forallb_negb.
    now apply fold_classify_none_pending.
Qed.

Lemma loadTables_keeps_polling_witness :
  hasLoadingTables
    (fst (TableConfig.loadTables
            (Sample.catalog [Sample.orders_pending; Fixture.customers])
            (Sample.config_loaded "")))
  = existsb pending [Sample.orders_pending; Fixture.customers].
Proof.
  apply (loadTables_keeps_polling
           (Sample.catalog [Sample.orders_pending; Fixture.customers])
           (Sample.config_loaded "")
           [Sample.orders_pending; Fixture.customers]).
  - reflexivity.
  - simpl. repeat constructor; simpl; intuition discriminate.
  - simpl. intuition discriminate.
Defined.

(** X18.  Polling stops: once a firing of the interval has fetched a
    snapshot in which no table carries the placeholder description, no later
    firing makes a call or changes the state, whatever the names in the
    snapshot. *)
Theorem poll_stops (sv sv' : ConfigView.Service) (st : ConfigView.State)
    (data : list TableInfo) :
  hasLoadingTables (ConfigView.config st) = true ->
  get_tables (ConfigView.base sv) = Resolved data ->
  existsb pending data = false ->
  snd (ConfigView.poll sv st) = [ConfigView.Http GET_tables] /\
  ConfigView.poll sv' (fst (ConfigView.poll sv st))
  = (fst (ConfigView.poll sv st), []).
Proof.
  intros Hrun Hget Hdata.
  unfold ConfigView.poll at 1 3 4. rewrite Hrun.
  unfold ConfigView.loadTables, TableConfig.loadTables. rewrite Hget. cbn.
  split; [reflexivity|].
  unfold ConfigView.poll. cbn. unfold hasLoadingTables. cbn.
  rewrite existsb_forallb_negb; [reflexivity|].
  now apply fold_classify_none_pending.
Qed.

Lemma poll_stops_witness :
  let sv := Fixture.accepting [Sample.orders] in
  let st := ConfigView.setConfig
              (fst (TableConfig.loadTables (Sample.catalog [Sample.orders_pending])
                      (Sample.config_loaded "")))
              (Fixture.view "") in
  snd (ConfigView.poll sv st) = [ConfigView.Http GET_tables] /\
  ConfigView.poll (Fixture.refusing None) (fst (ConfigView.poll sv st))
  = (fst (ConfigView.poll sv st), []).
Proof.
  apply (poll_stops (Fixture.accepting [Sample.orders]) (Fixture.refusing None)
           (ConfigView.setConfig
              (fst (TableConfig.loadTables (Sample.catalog [Sample.orders_pending])
                      (Sample.config_loaded "")))
              (Fixture.view ""))
           [Sample.orders]); reflexivity.
Defined.



Lemma configured_in (l : list TableInfo) (name : string) :
  existsb (fun configuredTable => (table_name configuredTable =? name)) l = true
  <-> In name (map table_name l).
Proof.
  rewrite existsb_exists, in_map_iff. split.
  - intros [t [Hin Heq]]. apply String.eqb_eq in Heq. eauto.
  - intros [t [Heq Hin]]. exists t. split; [exact Hin | now apply String.eqb_eq].
Qed.

(** The drop-down offers a name exactly when the service lists it as
    available and no configured table has it. *)
Lemma availableUnconfiguredTables_in (st : TableConfig.State) (name : string) :
  In name (availableUnconfiguredTables st)
  <-> In name (availableTables st) /\ ~ In name (map table_name (tables st)).
Proof.
  unfold availableUnconfiguredTables. rewrite filter_In, negb_true_iff.
  rewrite <- configured_in.
  destruct (existsb _ (tables st)); intuition congruence.
Qed.

(** X20.  When the service accepts the added table and the refresh that
    follows returns a snapshot that lists it, the view shows the snapshot,
    the drop-down no longer offers the table, and the optimistic mark has
    given way to the classification of the snapshot. *)
Theorem addTable_then_configured (be : Backend) (st : TableConfig.State)
    (data : list TableInfo) :
  JsString.is_empty (selectedTable st) = false ->
  post_tables be (selectedTable st) = Resolved tt ->
  get_tables be = Resolved data ->
  In (selectedTable st) (map table_name data) ->
  tables (fst (addTable be st)) = data /\
  ~ In (selectedTable st) (availableUnconfiguredTables (fst (addTable be st))) /\
  loadingStates (fst (addTable be st)) = newLoadingStates data /\
  selectedTable (fst (addTable be st)) = "" /\
  addingTable (fst (addTable be st)) = false.
Proof.
  intros Hname Hpost Hget Hin.
  assert (Heq : fst (addTable be st)
                = setAddingTable false
                    (setLoadingStates (fun _ => newLoadingStates data)
                       (setTables data
                          (markPending (selectedTable st) (setAddingTable true st))))).
  { unfold addTable, TableConfig.loadTables. now rewrite Hname, Hpost, Hget. }
  rewrite Heq. split; [reflexivity|]. split; [|repeat split].
  rewrite availableUnconfiguredTables_in. cbn. tauto.
Qed.

Lemma addTable_then_configured_witness :
  let be := Sample.catalog [Sample.orders; Fixture.customers] in
  let st := Sample.config_loaded "customers" in
  tables (fst (addTable be st)) = [Sample.orders; Fixture.customers] /\
  ~ In "customers" (availableUnconfiguredTables (fst (addTable be st))) /\
  loadingStates (fst (addTable be st))
  = newLoadingStates [Sample.orders; Fixture.customers] /\
  selectedTable (fst (addTable be st)) = "" /\
  addingTable (fst (addTable be st)) = false.
Proof.
  apply (addTable_then_configured
           (Sample.catalog [Sample.orders; Fixture.customers])
           (Sample.config_loaded "customers")
           [Sample.orders; Fixture.customers]).
  - reflexivity.
  - reflexivity.
  - reflexivity.
  - simpl. auto.
Defined.

(** X21.  [deleteTable] does nothing to the state unless the user confirmed
    and the service accepted the deletion: without confirmation it makes no
    call at all, and after a refused deletion it has made the DELETE call
    and no refresh. *)
Theorem deleteTable_untouched (sv : Service) (confirmed : bool)
    (tableName : string) (st : ConfigView.State) (e : AxiosError) :
  confirmed = false \/ delete_tables sv tableName = Rejected e ->
  fst (deleteTable sv confirmed tableName st) = st /\
  snd (deleteTable sv confirmed tableName st)
  = (if confirmed then [DELETE_tables tableName] else []).
Proof.
  unfold deleteTable. intros [->|Hrej]; [split; reflexivity|].
  destruct confirmed; cbn; [|split; reflexivity].
  rewrite Hrej. split; reflexivity.
Qed.

Lemma deleteTable_untouched_witness :
  fst (deleteTable (Fixture.refusing None) true "orders" (Fixture.view ""))
  = Fixture.view "" /\
  snd (deleteTable (Fixture.refusing None) true "orders" (Fixture.view ""))
  = [DELETE_tables "orders"].
Proof.
  apply (deleteTable_untouched (Fixture.refusing None) true "orders"
           (Fixture.view "") (Response None)).
  right. reflexivity.
Defined.

(** X22.  A confirmed deletion the service accepts is followed by the two
    refreshes, in that order.  When both succeed, the snapshot no longer
    lists the table and the service lists it as available, the drop-down
    offers the table again. *)
Theorem deleteTable_offers_again (sv : Service) (tableName : string)
    (st : ConfigView.State) (data : list TableInfo) (available : list string) :
  delete_tables sv tableName = Resolved tt ->
  get_tables (base sv) = Resolved data ->
  get_available_tables sv = Resolved available ->
  ~ In tableName (map table_name data) ->
  In tableName available ->
  snd (deleteTable sv true tableName st)
  = [DELETE_tables tableName; Http GET_tables; Http GET_available_tables] /\
  tables (config (fst (deleteTable sv true tableName st))) = data /\
  In tableName
     (availableUnconfiguredTables (config (fst (deleteTable sv true tableName st)))).
Proof.
  intros Hdel Hget Havail Hgone Hin.
  rewrite availableUnconfiguredTables_in.
  unfold deleteTable, ConfigView.loadTables, TableConfig.loadTables,
    loadAvailableTables.
  cbn. rewrite Hdel, Hget, Havail. cbn. tauto.
Qed.

Lemma deleteTable_offers_again_witness :
  let sv := Fixture.accepting [Fixture.customers] in
  snd (deleteTable sv true "orders" (Fixture.view ""))
  = [DELETE_tables "orders"; Http GET_tables; Http GET_available_tables] /\
  tables (config (fst (deleteTable sv true "orders" (Fixture.view ""))))
  = [Fixture.customers] /\
  In "orders"
     (availableUnconfiguredTables
        (config (fst (deleteTable sv true "orders" (Fixture.view ""))))).
Proof.
  apply (deleteTable_offers_again (Fixture.accepting [Fixture.customers]) "orders"
           (Fixture.view "") [Fixture.customers] ["orders"; "customers"]).
  - reflexivity.
  - reflexivity.
  - reflexivity.
  - simpl. intuition discriminate.
  - simpl. auto.
Defined.

(** X23.  [deleteExcelTable] and [updateTableDescription] refresh their
    list exactly when the mutating call went out and was accepted; in every
    other case the state is as before.  An unconfirmed deletion of an upload
    makes no call. *)
Theorem mutations_refresh_on_success (sv : Service) (confirmed : bool)
    (tableName : string) (description : JsValue) (st : ConfigView.State) :
  (match delete_excel_tables sv tableName with
   | Resolved _ =>
       snd (deleteExcelTable sv true tableName st)
       = [DELETE_excel_tables tableName; Http GET_excel_tables]
   | Rejected _ =>
       deleteExcelTable sv true tableName st = (st, [DELETE_excel_tables tableName])
   end) /\
  deleteExcelTable sv false tableName st = (st, []) /\
  (match put_tables sv tableName description with
   | Resolved _ =>
       updateTableDescription sv tableName description st
       = (fst (ConfigView.loadTables sv st),
          [PUT_tables tableName description; Http GET_tables])
   | Rejected _ =>
       updateTableDescription sv tableName description st
       = (st, [PUT_tables tableName description])
   end).
Proof.
  unfold deleteExcelTable, updateTableDescription, ConfigView.loadExcelTables,
    ConfigView.loadTables, TableConfig.loadTables. cbn.
  destruct (delete_excel_tables sv tableName), (put_tables sv tableName description),
    (get_excel_tables (base sv)), (get_tables (base sv)); cbn; auto.
Qed.

(** X24.  What [handleExcelUpload] leaves behind.  With no file chosen,
    nothing happens.  With a file, the upload flag is down at the end; an
    accepted upload clears the error message and is followed by one refresh
    of the uploads; a refused upload makes no refresh, keeps the list of
    uploads, and sets the error message to the detail of the response when that is
    truthy and to the fixed text otherwise.  The tables are never touched. *)
Theorem handleExcelUpload_outcome (sv : Service) (file : string) (st : ConfigView.State) :
  handleExcelUpload sv None st = (st, []) /\
  uploadingExcel (fst (handleExcelUpload sv (Some file) st)) = false /\
  tables (config (fst (handleExcelUpload sv (Some file) st))) = tables (config st) /\
  loadingStates (config (fst (handleExcelUpload sv (Some file) st)))
  = loadingStates (config st) /\
  match post_upload_excel sv file with
  | Resolved _ =>
      TableConfig.error (config (fst (handleExcelUpload sv (Some file) st))) = None /\
      snd (handleExcelUpload sv (Some file) st)
      = [POST_upload_excel file; Http GET_excel_tables] /\
      excelTables (fst (handleExcelUpload sv (Some file) st))
      = match get_excel_tables (base sv) with
        | Resolved uploads => uploads
        | Rejected _ => excelTables st
        end
  | Rejected err =>
      TableConfig.error (config (fst (handleExcelUpload sv (Some file) st)))
      = Some (if Js.truthy (error_detail err) then error_detail err
              else JStr "Error uploading Excel file") /\
      snd (handleExcelUpload sv (Some file) st) = [POST_upload_excel file] /\
      excelTables (fst (handleExcelUpload sv (Some file) st)) = excelTables st
  end.
Proof.
  unfold handleExcelUpload, ConfigView.loadExcelTables. cbn.
  destruct (post_upload_excel sv file); [destruct (get_excel_tables (base sv))|];
    cbn; auto 10.
Qed.

(** X25.  The three loaders started on mount write to different parts of
    the state, so the order in which their responses arrive does not
    matter. *)
Theorem config_loaders_commute (sv : Service) (st : ConfigView.State) :
  fst (ConfigView.loadTables sv (fst (loadAvailableTables sv st)))
  = fst (loadAvailableTables sv (fst (ConfigView.loadTables sv st))) /\
  fst (ConfigView.loadTables sv (fst (ConfigView.loadExcelTables sv st)))
  = fst (ConfigView.loadExcelTables sv (fst (ConfigView.loadTables sv st))) /\
  fst (loadAvailableTables sv (fst (ConfigView.loadExcelTables sv st)))
  = fst (ConfigView.loadExcelTables sv (fst (loadAvailableTables sv st))).
Proof.
  unfold ConfigView.loadTables, TableConfig.loadTables, loadAvailableTables,
    ConfigView.loadExcelTables.
  destruct (get_tables (base sv)), (get_available_tables sv),
    (get_excel_tables (base sv)); cbn; auto.
Qed.

End ConfigFacts.
